(** * toolchest.pyomoio: reading Pyomo model entities into pandas tables

    A shallow embedding of [src/toolchest/pyomoio.py]
    ([_get_onset_names], [get_entity], [get_entities], [list_entities])
    together with the properties of the natural-language specification
    that can be stated over it. *)

From Stdlib Require Import ZArith QArith Lia Sorted.
From stdpp Require Import base list strings.

Open Scope Z_scope.

(** ** Python values and exceptions *)

(** Cells of a table: set elements, index keys and entity values. *)
#[warnings="-register-all"]
Inductive pyval : Type :=
| VNone
| VNum (q : Q)
| VStr (s : string)
| VTuple (items : list pyval).

(** The exceptions the module can raise, directly ([ValueError]) or
    through attribute access and tuple concatenation on the objects it is
    handed, and those raised inside pandas: [KeyError] for a column that
    is not there, and [PandasError] for a failure whose exception class
    depends on the call and on the version of pandas. *)
Inductive exn : Type :=
| ValueError (msg : string)
| AttributeError (attr : string)
| TypeError
| KeyError (key : string)
| PandasError (msg : string).

Inductive res (A : Type) : Type :=
| Ok (a : A)
| Raise (e : exn).
Arguments Ok {A} a.
Arguments Raise {A} e.

Definition bind {A B : Type} (r : res A) (k : A -> res B) : res B :=
  match r with
  | Ok a => k a
  | Raise e => Raise e
  end.

#[global] Instance res_ret : MRet res := fun A a => Ok a.
#[global] Instance res_bind : MBind res := fun A B k r => bind r k.

Definition raises {A : Type} (r : res A) : Prop :=
  match r with Ok _ => False | Raise _ => True end.

(** ** The model objects

    What the module reads from a Pyomo component:
    - a [pyomo.Set]: [name], [doc], [dimen], [domain] ([None] or an
      object), [set_tuple] (present on product sets only; reading it from
      a set without it is an [AttributeError]), [virtual], [value];
    - a [pyomo.Param], [Var], [Constraint] or [Objective]: [name], [doc],
      [dim()], [_index], [items()].  For a [Param] the second component
      of an item is the value itself; for the other three it is the
      [.value] of the component data;
    - any other Python object found in the model, with its truth value. *)
Inductive kind : Type := Param | Var | Constraint | Objective.

#[warnings="-register-all"]
Inductive pyobj : Type :=
| PSet (name : string) (doc : option string) (dimen : Z)
       (domain : option pyobj) (set_tuple : option (list pyobj))
       (virtual : bool) (value : list pyval)
| PIndexed (k : kind) (name : string) (doc : option string) (dim : Z)
           (_index : option pyobj) (items : list (pyval * pyval))
| POther (name : string) (truth : bool).

Definition obj_name (o : pyobj) : string :=
  match o with
  | PSet name _ _ _ _ _ _ => name
  | PIndexed _ name _ _ _ _ => name
  | POther name _ => name
  end.

Definition obj_doc (o : pyobj) : option string :=
  match o with
  | PSet _ doc _ _ _ _ _ => doc
  | PIndexed _ _ doc _ _ _ => doc
  | POther _ _ => None
  end.

(** Python truth value of an object: Pyomo components define [__len__],
    so a set is true exactly when it has elements and an indexed
    component exactly when it has items; another object carries its own
    truth value. *)
Definition obj_truth (o : pyobj) : bool :=
  match o with
  | PSet _ _ _ _ _ _ value => negb (Nat.eqb (length value) 0%nat)
  | PIndexed _ _ _ _ _ items => negb (Nat.eqb (length items) 0%nat)
  | POther _ truth => truth
  end.

(** Truth value of an attribute that holds [None] or an object. *)
Definition truthy (o : option pyobj) : bool :=
  match o with
  | None => false
  | Some o => obj_truth o
  end.

(** ** [_get_onset_names] *)

(** Reading [o.set_tuple]. *)
Definition get_set_tuple (o : pyobj) : res (list pyobj) :=
  match o with
  | PSet _ _ _ _ (Some l) _ _ => Ok l
  | _ => Raise (AttributeError "set_tuple")
  end.

(** The recursion of the source, on the structure of the object.  The
    loop [for domain_set in domains: labels.extend(...)] is the inner
    [extend_all]; [own] is the loop over [entity.set_tuple], taken when
    [entity.domain] is false. *)
Fixpoint _get_onset_names (entity : pyobj) : res (list string) :=
  match entity with
  | PSet name _ dimen domain set_tuple _ _ =>
      if 1 <? dimen then
        let extend_all :=
          fix extend_all (domains : list pyobj) : res (list string) :=
            match domains with
            | [] => Ok []
            | domain_set :: rest =>
                l ← _get_onset_names domain_set;
                ls ← extend_all rest;
                Ok (l ++ ls)
            end in
        let own :=
          match set_tuple with
          | Some domains => extend_all domains
          | None => Raise (AttributeError "set_tuple")
          end in
        match domain with
        | Some (PSet _ _ _ _ (Some domains) _ _ as d) =>
            if obj_truth d then extend_all domains else own
        | Some d =>
            if obj_truth d then Raise (AttributeError "set_tuple") else own
        | None => own
        end
      else if dimen =? 1 then
        match domain with
        | Some d => if obj_truth d then Ok [obj_name d] else Ok [name]
        | None => Ok [name]
        end
      else Ok []
  | PIndexed _ _ _ dim _index _ =>
      match _index with
      | Some i =>
          if (0 <? dim) && obj_truth i then _get_onset_names i else Ok []
      | None => Ok []
      end
  | POther _ _ => Raise (ValueError "Unknown entity type!")
  end.

(** The loop over the component sets, as a function of its own. *)
Fixpoint onset_names_of_list (domains : list pyobj) : res (list string) :=
  match domains with
  | [] => Ok []
  | domain_set :: rest =>
      l ← _get_onset_names domain_set;
      ls ← onset_names_of_list rest;
      Ok (l ++ ls)
  end.

(** [entity.domain.set_tuple] when [entity.domain] is true, else
    [entity.set_tuple]. *)
Definition domains_of (domain : option pyobj) (set_tuple : option (list pyobj))
  : res (list pyobj) :=
  match domain with
  | Some d =>
      if obj_truth d then get_set_tuple d
      else from_option Ok (Raise (AttributeError "set_tuple")) set_tuple
  | None => from_option Ok (Raise (AttributeError "set_tuple")) set_tuple
  end.

(** *** The recursion with an explicit call depth

    The same function with the depth of the Python call stack made
    explicit: [None] means that [fuel] nested calls were not enough. *)
Fixpoint extend_all_fuel (call : pyobj -> option (res (list string)))
    (domains : list pyobj) : option (res (list string)) :=
  match domains with
  | [] => Some (Ok [])
  | domain_set :: rest =>
      match call domain_set with
      | None => None
      | Some (Raise e) => Some (Raise e)
      | Some (Ok l) =>
          match extend_all_fuel call rest with
          | None => None
          | Some (Raise e) => Some (Raise e)
          | Some (Ok ls) => Some (Ok (l ++ ls))
          end
      end
  end.

Fixpoint _get_onset_names_fuel (fuel : nat) (entity : pyobj)
  : option (res (list string)) :=
  match fuel with
  | O => None
  | S fuel' =>
      match entity with
      | PSet name _ dimen domain set_tuple _ _ =>
          if 1 <? dimen then
            match domains_of domain set_tuple with
            | Ok domains =>
                extend_all_fuel (_get_onset_names_fuel fuel') domains
            | Raise e => Some (Raise e)
            end
          else if dimen =? 1 then
            if truthy domain then Some (Ok [from_option obj_name name domain])
            else Some (Ok [name])
          else Some (Ok [])
      | PIndexed _ _ _ dim _index _ =>
          match _index with
          | Some i =>
              if (0 <? dim) && obj_truth i
              then _get_onset_names_fuel fuel' i
              else Some (Ok [])
          | None => Some (Ok [])
          end
      | POther _ _ => Some (Raise (ValueError "Unknown entity type!"))
      end
  end.

(** Nesting depth of an object: the longest chain of domains, component
    sets and index sets below it. *)
Fixpoint depth (o : pyobj) : nat :=
  match o with
  | PSet _ _ _ domain set_tuple _ _ =>
      let depth_list :=
        fix depth_list (l : list pyobj) : nat :=
          match l with
          | [] => O
          | d :: l' => Nat.max (depth d) (depth_list l')
          end in
      S (Nat.max (from_option depth O domain)
                 (from_option depth_list O set_tuple))
  | PIndexed _ _ _ _ _index _ => S (from_option depth O _index)
  | POther _ _ => O
  end.

Fixpoint depth_list (l : list pyobj) : nat :=
  match l with
  | [] => O
  | d :: l' => Nat.max (depth d) (depth_list l')
  end.

(** *** Entities and their dimensionality *)

Definition is_set (o : pyobj) : bool :=
  match o with PSet _ _ _ _ _ _ _ => true | _ => false end.

(** [isinstance(entity, (Set, Param, Var, Constraint, Objective))]. *)
Definition is_entity (o : pyobj) : bool :=
  match o with POther _ _ => false | _ => true end.

(** [entity.dimen] of a set, [entity.dim()] of an indexed component. *)
Definition dim_of (o : pyobj) : Z :=
  match o with
  | PSet _ _ dimen _ _ _ _ => dimen
  | PIndexed _ _ _ dim _ _ => dim
  | POther _ _ => 0
  end.

(** [calls parent child]: evaluating [_get_onset_names parent] makes the
    recursive call [_get_onset_names child] (line 208 for a component of
    a multi-dimensional set, line 224 for the index of a component). *)
Inductive calls : pyobj -> pyobj -> Prop :=
| calls_component name doc dimen domain set_tuple virtual value domains child :
    1 < dimen ->
    domains_of domain set_tuple = Ok domains ->
    child ∈ domains ->
    calls (PSet name doc dimen domain set_tuple virtual value) child
| calls_index k name doc dim i items :
    0 < dim ->
    obj_truth i = true ->
    calls (PIndexed k name doc dim (Some i) items) i.

(** Sum of the dimensions of a list of component sets. *)
Definition sum_dims (l : list pyobj) : Z :=
  foldr (fun d acc => dim_of d + acc) 0 l.

(** Well-formed model entities, as Pyomo builds them:
    - a set of dimension above one is a product, or is declared within
      one: the component list it is read from exists, has at least two
      components, each a well-formed set of dimension at least one, and
      the dimensions of the components add up to that of the set;
    - another set has dimension zero or one;
    - an indexed component of positive dimension has a non-empty,
      well-formed index set of the same dimension; a scalar one has
      dimension zero. *)
Fixpoint wf_entity (o : pyobj) : bool :=
  match o with
  | PSet _ _ dimen domain set_tuple _ _ =>
      if 1 <? dimen then
        let wf_components :=
          fix wf_components (l : list pyobj) : bool :=
            match l with
            | [] => true
            | d :: l' =>
                is_set d && wf_entity d && (1 <=? dim_of d)
                && wf_components l'
            end in
        let product (l : list pyobj) : bool :=
          (2 <=? length l)%nat && wf_components l && (sum_dims l =? dimen) in
        let own := from_option product false set_tuple in
        match domain with
        | Some (PSet _ _ _ _ (Some domains) _ _ as d) =>
            if obj_truth d then product domains else own
        | Some d => if obj_truth d then false else own
        | None => own
        end
      else 0 <=? dimen
  | PIndexed _ _ _ dim _index _ =>
      if 0 <? dim then
        match _index with
        | Some i => obj_truth i && is_set i && wf_entity i && (dim_of i =? dim)
        | None => false
        end
      else dim =? 0
  | POther _ _ => false
  end.

Fixpoint wf_components (l : list pyobj) : bool :=
  match l with
  | [] => true
  | d :: l' =>
      is_set d && wf_entity d && (1 <=? dim_of d) && wf_components l'
  end.

(** ** The pandas tables

    Only what the module does with pandas is modelled.
    - [pd.DataFrame(rows)] is a table with one row per tuple and as many
      columns as the longest tuple, shorter rows padded with missing
      values; its columns carry the default labels [0, 1, ...].
    - [results.columns = names] raises [ValueError] unless there is
      exactly one name per column.
    - [results.set_index(labels)] and [results[name]] select columns by
      their name.  A key of [set_index] has to select one column: under
      a name carried by several columns it selects a table, from which
      no index level can be built, and the call fails.  The columns
      named by the keys are dropped, and [results[name]] is the column
      named [name] among those left. *)
Record series : Type := Series {
  index_names : list string;
  series_name : string;
  entries : list (list pyval * pyval)
}.

(** What [get_entity] returns: the empty, unlabeled [DataFrame] built
    from no rows, or a [Series]. *)
Inductive table : Type :=
| EmptyFrame
| ASeries (s : series).

Definition width (rows : list (list pyval)) : nat :=
  foldr (fun row w => Nat.max (length row) w) O rows.

Definition pad (w : nat) (row : list pyval) : list pyval :=
  row ++ replicate (w - length row) VNone.

(** [pd.DataFrame(rows)]: the padded rows. *)
Definition pd_DataFrame (rows : list (list pyval)) : list (list pyval) :=
  pad (width rows) <$> rows.

(** [results.columns = names]. *)
Definition set_columns (frame : list (list pyval)) (names : list string)
  : res (list (list pyval)) :=
  if (length names =? width frame)%nat then Ok frame
  else Raise (ValueError "Length mismatch").

(** The positions, counted from [i], of the columns named [key]. *)
Fixpoint positions (key : string) (columns : list string) (i : nat)
  : list nat :=
  match columns with
  | [] => []
  | c :: columns' =>
      if String.eqb c key then i :: positions key columns' (S i)
      else positions key columns' (S i)
  end.

(** A key of [set_index]: [frame[key]] has to be one column. *)
Definition index_column (key : string) (columns : list string) : res nat :=
  match positions key columns 0 with
  | [] => Raise (KeyError key)
  | [i] => Ok i
  | _ => Raise (PandasError "Index data must be 1-dimensional")
  end.

(** [results.set_index(labels, inplace=True)] on a table under
    [columns]: the positions of the index columns, one per key, and the
    columns left, those that no key names, with their positions. *)
Definition set_index (columns labels : list string)
  : res (list nat * list (string * nat)) :=
  keys ← mapM (fun label => index_column label columns) labels;
  Ok (keys,
      filter (fun cn => cn.1 ∉ labels)
             (zip columns (seq 0 (length columns)))).

(** [results[name]] on the columns left: the position of the column
    named [name].  Several columns under that name would make a table,
    not a series; after [set_index] on the columns [labels + [name]] at
    most one column is left. *)
Definition getitem (columns_left : list (string * nat)) (name : string)
  : res nat :=
  match filter (fun cn => cn.1 = name) columns_left with
  | [] => Raise (KeyError name)
  | [cn] => Ok cn.2
  | _ => Raise (PandasError "several columns under one name")
  end.

(** The series read off a table: the index cells of a row are its cells
    at the positions [keys], its value is its cell at the position
    [value]. *)
Definition series_at (frame : list (list pyval)) (labels : list string)
    (name : string) (keys : list nat) (value : nat) : series :=
  Series labels name
    ((fun row => ((fun i => default VNone (row !! i)) <$> keys,
                  default VNone (row !! value))) <$> frame).

(** Lines 72 to 75 on a table whose columns have been named
    [labels + [name]]:
    [results.set_index(labels); results = results[name]]. *)
Definition to_series (frame : list (list pyval)) (labels : list string)
    (name : string) : res series :=
  indexed ← set_index (labels ++ [name]) labels;
  value ← getitem indexed.2 name;
  Ok (series_at frame labels name indexed.1 value).

(** ** [get_entity] *)

(** A model instance: its attributes, in the order of [__dict__]. *)
Definition instance : Type := list (string * pyobj).

(** [instance.__getattribute__(name)]. *)
Fixpoint getattribute (inst : instance) (name : string) : res pyobj :=
  match inst with
  | [] => Raise (AttributeError name)
  | (n, o) :: inst' =>
      if String.eqb n name then Ok o else getattribute inst' name
  end.

(** [v[0] + (x,)]: concatenating the index tuple with the value; an
    index that is not a tuple cannot be concatenated with one. *)
Definition concat_index (idx x : pyval) : res (list pyval) :=
  match idx with
  | VTuple l => Ok (l ++ [x])
  | _ => Raise TypeError
  end.

(** The rows gathered from the entity (lines 34 to 61). *)
Definition entity_rows (entity : pyobj) : res (list (list pyval)) :=
  match entity with
  | PSet _ _ _ _ _ _ value =>
      Ok ((fun v => [v; VNum 1]) <$> value)
  | PIndexed Param _ _ dim _ items =>
      if 1 <? dim then mapM (fun v => concat_index v.1 v.2) items
      else Ok ((fun v => [v.1; v.2]) <$> items)
  | PIndexed _ _ _ dim _ items =>
      if 1 <? dim then mapM (fun v => concat_index v.1 v.2) items
      else Ok ((fun v => [v.1; v.2]) <$> items)
  | POther _ _ => Raise (AttributeError "dim")
  end.

(** One round of the duplicate scan (lines 66 and 67), at position [k]
    of the list as it stands. *)
Definition dedup_step (labels : list string) (k : nat) : list string :=
  match labels !! k with
  | Some label =>
      if bool_decide (label ∈ take k labels)
      then <[k := label +:+ "_"]> labels
      else labels
  | None => labels
  end.

(** The duplicate scan (lines 65 to 67): the list is updated in place
    while it is enumerated. *)
Definition dedup_labels (labels : list string) : list string :=
  foldl dedup_step labels (seq 0 (length labels)).

(** Lines 42 to 44, inside the branch of the sets: a set that got no
    label is indexed under its own name, and its column takes the
    marker. *)
Definition rename_unlabelled (entity : pyobj) (labels : list string)
    (name : string) : list string * string :=
  if is_set entity && bool_decide (labels = [])
  then ([name], name +:+ "_")
  else (labels, name).

Definition get_entity (inst : instance) (name : string) : res table :=
  entity ← getattribute inst name;
  labels ← _get_onset_names entity;
  rows ← entity_rows entity;
  let results := pd_DataFrame rows in
  let '(labels, name) := rename_unlabelled entity labels name in
  let labels := dedup_labels labels in
  if bool_decide (results = []) then Ok EmptyFrame
  else
    results ← set_columns results (labels ++ [name]);
    s ← to_series results labels name;
    Ok (ASeries s).

(** *** Reading entities and results *)


(** The number of (index, value) elements of an entity. *)
Definition row_count (entity : pyobj) : nat :=
  match entity with
  | PSet _ _ _ _ _ _ value => length value
  | PIndexed _ _ _ _ _ items => length items
  | POther _ _ => O
  end.




(** ** [get_entities] *)

(** A table with several columns over a (possibly multi-level) index. *)
Record dframe : Type := DFrame {
  df_index_names : list (option string);
  df_columns : list string;
  df_rows : list (list pyval * list pyval)
}.

(** [pd.DataFrame()]. *)
Definition empty_dframe : dframe := DFrame [None] [] [].

(** [df.empty]: no rows or no columns. *)
Definition df_empty (df : dframe) : bool :=
  bool_decide (df_rows df = []) || bool_decide (df_columns df = []).

(** [other.to_frame()]: a [Series] becomes a one-column table; a
    [DataFrame] has no such method. *)
Definition to_frame (other : table) : res dframe :=
  match other with
  | ASeries s =>
      Ok (DFrame (Some <$> index_names s) [series_name s]
                 ((fun e => (e.1, [e.2])) <$> entries s))
  | EmptyFrame => Raise (AttributeError "to_frame")
  end.

(** [df.index.names = names]: one name per index level, or
    [ValueError]. *)
Definition set_index_names (df : dframe) (names : list (option string))
  : res dframe :=
  if (length names =? length (df_index_names df))%nat
  then Ok (DFrame names (df_columns df) (df_rows df))
  else Raise (ValueError "Length of new names must match number of levels").

Section Joiner.

(** [df.join(other, how='outer')] belongs to pandas; the joiner is
    stated for any such operation. *)
Variable join : dframe -> table -> res dframe.

(** The body of the loop (lines 103 to 113), given the extracted
    [other]. *)
Definition combine (df : dframe) (other : table) : res dframe :=
  if df_empty df then to_frame other
  else
    let index_names_before := df_index_names df in
    df ← join df other;
    if bool_decide (index_names_before ≠ df_index_names df)
    then set_index_names df index_names_before
    else Ok df.

Fixpoint get_entities_from (inst : instance) (df : dframe)
    (names : list string) : res dframe :=
  match names with
  | [] => Ok df
  | name :: names' =>
      other ← get_entity inst name;
      df ← combine df other;
      get_entities_from inst df names'
  end.

Definition get_entities (inst : instance) (names : list string)
  : res dframe :=
  get_entities_from inst empty_dframe names.

End Joiner.

(** ** [list_entities] *)

Definition is_kind (k : kind) (o : pyobj) : bool :=
  match o, k with
  | PIndexed Param _ _ _ _ _, Param
  | PIndexed Var _ _ _ _ _, Var
  | PIndexed Constraint _ _ _ _ _, Constraint
  | PIndexed Objective _ _ _ _ _, Objective => true
  | _, _ => false
  end.

(** The helper [filter_by_type]. *)
Definition filter_by_type (entity : pyobj) (entity_type : string)
  : res bool :=
  if String.eqb entity_type "set" then
    Ok (match entity with
        | PSet _ _ _ _ _ virtual _ => negb virtual
        | _ => false
        end)
  else if String.eqb entity_type "par" then Ok (is_kind Param entity)
  else if String.eqb entity_type "var" then Ok (is_kind Var entity)
  else if String.eqb entity_type "con" then Ok (is_kind Constraint entity)
  else if String.eqb entity_type "obj" then Ok (is_kind Objective entity)
  else Raise (ValueError ("Unknown entity_type '" +:+ entity_type +:+ "'")).

(** A line of the listing: name, description, domain labels. *)
Definition listing : Type := string * option string * list string.

(** The generator consumed by [sorted] (lines 162 to 164): the filter
    runs once per attribute of the instance. *)
Fixpoint matching_entities (iter_entities : instance) (entity_type : string)
  : res (list listing) :=
  match iter_entities with
  | [] => Ok []
  | (name, entity) :: rest =>
      keep ← filter_by_type entity entity_type;
      if keep : bool then
        labels ← _get_onset_names entity;
        found ← matching_entities rest entity_type;
        Ok ((name, obj_doc entity, labels) :: found)
      else matching_entities rest entity_type
  end.

(** [sorted]: the names are the keys of a dictionary, hence pairwise
    different, and decide the order of the tuples. *)
Fixpoint insert_by_name (x : listing) (l : list listing) : list listing :=
  match l with
  | [] => [x]
  | y :: l' =>
      if String.leb x.1.1 y.1.1 then x :: y :: l'
      else y :: insert_by_name x l'
  end.

Definition sorted (l : list listing) : list listing :=
  foldr insert_by_name [] l.

(** What [list_entities] returns: the table indexed by [Name], or the
    empty [DataFrame]. *)
Inductive entity_table : Type :=
| EmptyTable
| EntityTable (rows : list listing).

Definition list_entities (inst : instance) (entity_type : string)
  : res entity_table :=
  entities ← matching_entities inst entity_type;
  let entities := sorted entities in
  if bool_decide (entities ≠ []) then Ok (EntityTable entities)
  else Ok EmptyTable.


(** ** Example models *)

Module Examples.

(** The transport model of [tests/test_pyomoio.py]. *)
Definition plants : pyobj :=
  PSet "plants" None 1 None None false [VStr "Seattle"; VStr "San-Diego"].

Definition markets : pyobj :=
  PSet "markets" None 1 None None false
       [VStr "New-York"; VStr "Chicago"; VStr "Topeka"].

Definition route (p m : string) : pyval := VTuple [VStr p; VStr m].

Definition routes : list pyval :=
  [route "Seattle" "New-York"; route "Seattle" "Chicago";
   route "Seattle" "Topeka"; route "San-Diego" "New-York";
   route "San-Diego" "Chicago"; route "San-Diego" "Topeka"].

(** The product [plants * markets] that indexes [distance]. *)
Definition plants_markets : pyobj :=
  PSet "distance_index" None 2 None (Some [plants; markets]) true routes.

Definition capacity : pyobj :=
  PIndexed Param "capacity" None 1 (Some plants)
           [(VStr "Seattle", VNum 350); (VStr "San-Diego", VNum 600)].

Definition demand : pyobj :=
  PIndexed Param "demand" None 1 (Some markets)
           [(VStr "New-York", VNum 325); (VStr "Chicago", VNum 300);
            (VStr "Topeka", VNum 275)].

Definition distance : pyobj :=
  PIndexed Param "distance" None 2 (Some plants_markets)
           [(route "Seattle" "New-York", VNum 2.5);
            (route "Seattle" "Chicago", VNum 1.7);
            (route "Seattle" "Topeka", VNum 1.8);
            (route "San-Diego" "New-York", VNum 2.5);
            (route "San-Diego" "Chicago", VNum 1.8);
            (route "San-Diego" "Topeka", VNum 1.4)].

(** A scalar objective: one item, under the index [None]. *)
Definition obj_cost : pyobj :=
  PIndexed Objective "obj_cost" None 0 (Some (POther "{None}" true))
           [(VNone, VNone)].

Definition transport : instance :=
  [("name", POther "Transport" true);
   ("plants", plants); ("markets", markets);
   ("capacity", capacity); ("demand", demand); ("distance", distance);
   ("obj_cost", obj_cost)].


(** A set that was declared but holds no element yet, and a parameter
    indexed by it. *)
Definition storage : pyobj := PSet "storage" None 1 None None false [].

Definition storage_cost : pyobj :=
  PIndexed Param "storage_cost" None 1 (Some storage) [].

(** A set of pairs given by its elements, declared without a product
    domain and holding no element. *)
Definition links : pyobj := PSet "links" None 2 None None false [].

(** A parameter whose index is not a model entity. *)
Definition stray : pyobj :=
  PIndexed Param "stray" None 1 (Some (POther "mapping" true)) [].

Definition sparse : instance :=
  [("storage", storage); ("storage_cost", storage_cost);
   ("links", links); ("stray", stray)].

(** A parameter indexed three times by the same set. *)
Definition sit : pyobj :=
  PSet "sit" None 1 None None false [VStr "North"; VStr "South"].

Definition sit3 : pyobj :=
  PSet "flow_index" None 3 None (Some [sit; sit; sit]) true
       [VTuple [VStr "North"; VStr "South"; VStr "North"]].

Definition flow : pyobj :=
  PIndexed Param "flow" None 3 (Some sit3)
           [(VTuple [VStr "North"; VStr "South"; VStr "North"], VNum 7)].

Definition grid : instance :=
  [("sit", sit); ("flow", flow); ("routes", plants_markets)].

(** A join that forgets the name of the index, as the outer join of
    tables whose level names differ does, and adds the column of the
    series. *)
Definition forgetful_join (df : dframe) (other : table) : res dframe :=
  match other with
  | ASeries s =>
      Ok (DFrame [None] (df_columns df ++ [series_name s])
            (((fun r => (r.1, r.2 ++ [VNone])) <$> df_rows df)
             ++ ((fun e => (e.1, ((fun _ => VNone) <$> df_columns df) ++ [e.2]))
                   <$> entries s)))
  | EmptyFrame => Ok df
  end.

Definition capacity_frame : dframe :=
  DFrame [Some "plants"] ["capacity"]
         [([VStr "Seattle"], [VNum 350]); ([VStr "San-Diego"], [VNum 600])].

Definition demand_series : table :=
  ASeries (Series ["markets"] "demand"
             [([VStr "New-York"], VNum 325); ([VStr "Chicago"], VNum 300);
              ([VStr "Topeka"], VNum 275)]).

(** A series indexed like [distance], and a join that adds the index
    level the series has and the table lacks, as the outer join of a
    table indexed by [plants] with a series indexed by [plants] and
    [markets] does.  Only the index matters here: the cells of the
    columns the table had are left missing. *)
Definition distance_series : table :=
  ASeries (Series ["plants"; "markets"] "distance"
             [([VStr "Seattle"; VStr "New-York"], VNum 2.5);
              ([VStr "Seattle"; VStr "Chicago"], VNum 1.7)]).

Definition level_adding_join (df : dframe) (other : table) : res dframe :=
  match other with
  | ASeries s =>
      Ok (DFrame (Some <$> index_names s)
            (df_columns df ++ [series_name s])
            ((fun e => (e.1, ((fun _ => VNone) <$> df_columns df) ++ [e.2]))
               <$> entries s))
  | EmptyFrame => Ok df
  end.

(** A subset of [plants]: a one-dimensional set with a parent domain. *)
Definition hubs : pyobj :=
  PSet "hubs" None 1 (Some plants) None false [VStr "Seattle"].

Definition network : instance :=
  [("plants", plants); ("hubs", hubs)].

(** The forgetful join of the two: the index has lost its name. *)
Definition joined_frame : dframe :=
  DFrame [None] ["capacity"; "demand"]
         [([VStr "Seattle"], [VNum 350; VNone]);
          ([VStr "San-Diego"], [VNum 600; VNone]);
          ([VStr "New-York"], [VNone; VNum 325]);
          ([VStr "Chicago"], [VNone; VNum 300]);
          ([VStr "Topeka"], [VNone; VNum 275])].

End Examples.

(** ** Reading listings *)

(** The order of the listing: by name. *)
Definition name_le (a b : listing) : Prop := String.leb a.1.1 b.1.1 = true.
(** * Properties *)

(** ** Label derivation *)

(** The body of the source function, branch by branch. *)
Lemma _get_onset_names_eq (entity : pyobj) :
  _get_onset_names entity =
  match entity with
  | PSet name _ dimen domain set_tuple _ _ =>
      if 1 <? dimen then
        domains ← domains_of domain set_tuple;
        onset_names_of_list domains
      else if dimen =? 1 then
        if truthy domain then Ok [from_option obj_name name domain]
        else Ok [name]
      else Ok []
  | PIndexed _ _ _ dim _index _ =>
      if (0 <? dim) && truthy _index
      then from_option _get_onset_names (Ok []) _index
      else Ok []
  | POther _ _ => Raise (ValueError "Unknown entity type!")
  end.
Proof.
  destruct entity as [name doc dimen domain set_tuple virtual value
                     |k name doc dim idx items|name truth]; simpl.
  - destruct (1 <? dimen).
    + destruct domain as [[? ? ? ? [dl|] ? ?| |]|]; simpl;
        repeat match goal with
               | |- context [if ?b then _ else _] => destruct b; simpl
               end;
        destruct set_tuple; simpl; reflexivity.
    + destruct (dimen =? 1); [|done].
      destruct domain as [d|]; simpl; [destruct (obj_truth d)|]; done.
  - destruct idx as [i|]; simpl.
    + destruct (0 <? dim), (obj_truth i); done.
    + destruct (0 <? dim); done.
  - done.
Qed.

Lemma depth_PSet name doc dimen domain set_tuple virtual value :
  depth (PSet name doc dimen domain set_tuple virtual value) =
  S (Nat.max (from_option depth O domain)
             (from_option depth_list O set_tuple)).
Proof. destruct set_tuple; reflexivity. Qed.

Lemma depth_list_elem (domains : list pyobj) (d : pyobj) :
  d ∈ domains -> (depth d <= depth_list domains)%nat.
Proof.
  induction 1 as [d l|d d' l _ IH]; simpl; lia.
Qed.

Lemma get_set_tuple_depth (d : pyobj) (domains : list pyobj) :
  get_set_tuple d = Ok domains -> (depth_list domains < depth d)%nat.
Proof.
  destruct d as [? ? ? dom [l|] ? ?| |]; simpl; try discriminate.
  intros [= <-].
  change (depth_list l < S (Nat.max (from_option depth O dom) (depth_list l)))%nat.
  lia.
Qed.

(** The component sets read by a set lie strictly below it. *)
Lemma domains_of_depth name doc dimen domain set_tuple virtual value domains :
  domains_of domain set_tuple = Ok domains ->
  (depth_list domains <
   depth (PSet name doc dimen domain set_tuple virtual value))%nat.
Proof.
  rewrite depth_PSet. unfold domains_of.
  destruct domain as [d|]; simpl.
  - destruct (obj_truth d).
    + intros H%get_set_tuple_depth. lia.
    + destruct set_tuple; simpl; [intros [= <-]; lia|discriminate].
  - destruct set_tuple; simpl; [intros [= <-]; lia|discriminate].
Qed.

Lemma calls_depth (parent child : pyobj) :
  calls parent child -> (depth child < depth parent)%nat.
Proof.
  destruct 1 as [name doc dimen domain st virtual value domains child _ Hd Hin
                |k name doc dim i items _ _].
  - pose proof (domains_of_depth name doc dimen domain st virtual value _ Hd).
    pose proof (depth_list_elem _ _ Hin). lia.
  - simpl. lia.
Qed.

Lemma extend_all_fuel_spec (call : pyobj -> option (res (list string)))
    (domains : list pyobj) :
  (forall d, d ∈ domains -> call d = Some (_get_onset_names d)) ->
  extend_all_fuel call domains = Some (onset_names_of_list domains).
Proof.
  induction domains as [|d l IH]; intros Hcall; simpl; [done|].
  rewrite Hcall by apply list_elem_of_here.
  rewrite IH by (intros; apply Hcall; by apply list_elem_of_further).
  destruct (_get_onset_names d); simpl; [|done].
  destruct (onset_names_of_list l); done.
Qed.

(** With more nested calls allowed than the object is deep, the
    recursion returns, and returns what [_get_onset_names] computes. *)
Lemma fuel_enough (fuel : nat) :
  forall entity, (depth entity < fuel)%nat ->
  _get_onset_names_fuel fuel entity = Some (_get_onset_names entity).
Proof.
  induction fuel as [|fuel IH]; intros entity Hd; [lia|].
  rewrite _get_onset_names_eq.
  destruct entity as [name doc dimen domain st virtual value
                     |k name doc dim idx items|name truth]; simpl.
  - destruct (1 <? dimen).
    + destruct (domains_of domain st) as [domains|e] eqn:Hdom; simpl; [|done].
      apply extend_all_fuel_spec. intros d Hin. apply IH.
      pose proof (domains_of_depth name doc dimen domain st virtual value _ Hdom).
      pose proof (depth_list_elem _ _ Hin). lia.
    + destruct (dimen =? 1); [|done]. by destruct (truthy domain).
  - destruct idx as [i|]; simpl.
    + destruct (0 <? dim), (obj_truth i); simpl; try done.
      apply IH. simpl in Hd. lia.
    + by rewrite andb_false_r.
  - done.
Qed.

(** *** Well-formed entities *)

Lemma wf_entity_PSet name doc dimen domain set_tuple virtual value :
  wf_entity (PSet name doc dimen domain set_tuple virtual value) =
  if 1 <? dimen then
    match domains_of domain set_tuple with
    | Ok domains =>
        (2 <=? length domains)%nat && wf_components domains
        && (sum_dims domains =? dimen)
    | Raise _ => false
    end
  else 0 <=? dimen.
Proof.
  simpl. destruct (1 <? dimen); [|done].
  destruct domain as [[? ? ? ? [dl|] ? ?| |]|]; simpl;
    repeat match goal with
           | |- context [if ?b then _ else _] => destruct b; simpl
           end;
    destruct set_tuple; simpl; reflexivity.
Qed.

Lemma wf_components_labels (domains : list pyobj) :
  (forall d, d ∈ domains -> wf_entity d = true ->
     exists labels, _get_onset_names d = Ok labels
                    /\ Z.of_nat (length labels) = dim_of d) ->
  wf_components domains = true ->
  exists labels, onset_names_of_list domains = Ok labels
                 /\ Z.of_nat (length labels) = sum_dims domains.
Proof.
  induction domains as [|d l IH]; intros Hall Hwf; simpl.
  - by exists [].
  - simpl in Hwf. repeat (apply andb_prop in Hwf as [Hwf ?]).
    destruct (Hall d) as (ld & -> & Hld); [apply list_elem_of_here|done|].
    destruct IH as (ll & -> & Hll);
      [intros; apply Hall; [by apply list_elem_of_further|done]|done|].
    exists (ld ++ ll). split; [done|].
    rewrite length_app. lia.
Qed.

(** On a well-formed entity the labels are derived and there is one per
    dimension. *)
Lemma wf_labels_bounded (n : nat) :
  forall entity, (depth entity < n)%nat -> wf_entity entity = true ->
  exists labels, _get_onset_names entity = Ok labels
                 /\ Z.of_nat (length labels) = dim_of entity.
Proof.
  induction n as [|n IH]; intros entity Hd Hwf; [lia|].
  rewrite _get_onset_names_eq.
  destruct entity as [name doc dimen domain st virtual value
                     |k name doc dim idx items|name truth];
    [rewrite wf_entity_PSet in Hwf| |discriminate].
  - simpl dim_of. destruct (1 <? dimen) eqn:Hdim.
    + destruct (domains_of domain st) as [domains|e] eqn:Hdom; [|discriminate].
      apply andb_prop in Hwf as [Hwf Hsum]. apply andb_prop in Hwf as [_ Hwf].
      simpl. destruct (wf_components_labels domains) as (labels & -> & Hlen);
        [|done|].
      * intros d Hin. apply IH.
        pose proof (domains_of_depth name doc dimen domain st virtual value _ Hdom).
        pose proof (depth_list_elem _ _ Hin). lia.
      * exists labels. split; [done|]. lia.
    + destruct (dimen =? 1) eqn:Hone.
      * destruct (truthy domain); eexists; (split; [done|simpl; lia]).
      * exists []. split; [done|]. simpl. lia.
  - simpl in Hwf |- *. destruct (0 <? dim) eqn:Hdim.
    + destruct idx as [i|]; [|discriminate].
      repeat (apply andb_prop in Hwf as [Hwf ?]).
      simpl. rewrite Hwf. simpl.
      destruct (IH i) as (labels & -> & Hlen); [simpl in Hd; lia|done|].
      exists labels. split; [done|]. lia.
    + exists []. split; [done|]. simpl. lia.
Qed.

(** C1 on the code: the label count is not the dimension.  The index of
    a parameter over a set that holds no element is false, so the guard
    of line 223 yields no label for a dimension of one, where the comment
    of its else branch speaks of zero dimensions.  A set of pairs that is
    no product and is declared within none has no component list to read
    the labels from, and the derivation raises. *)
Theorem onset_names_count_fails :
  is_entity Examples.storage_cost = true
  /\ dim_of Examples.storage_cost = 1
  /\ _get_onset_names Examples.storage_cost = Ok []
  /\ is_entity Examples.links = true
  /\ dim_of Examples.links = 2
  /\ _get_onset_names Examples.links = Raise (AttributeError "set_tuple")
  /\ ~ (forall E, is_entity E = true ->
          exists labels, _get_onset_names E = Ok labels
                         /\ Z.of_nat (length labels) = dim_of E).
Proof.
  repeat (split; [reflexivity|]).
  intros H. destruct (H Examples.storage_cost) as (labels & Heq & Hlen);
    [done|].
  change (_get_onset_names Examples.storage_cost) with (Ok ([] : list string))
    in Heq.
  injection Heq as <-. discriminate.
Qed.

(** *** Objects that are no entity *)

Lemma other_object_raises (o : pyobj) :
  is_entity o = false ->
  _get_onset_names o = Raise (ValueError "Unknown entity type!").
Proof. by destruct o. Qed.

(** The error of a component is the error of the whole loop: the labels
    gathered from the components before it are dropped. *)
Lemma unknown_component_raises (domains : list pyobj) (d : pyobj) :
  d ∈ domains -> is_entity d = false -> raises (onset_names_of_list domains).
Proof.
  induction 1 as [d l|d d' l _ IH]; intros Hd; simpl.
  - by rewrite (other_object_raises d Hd).
  - destruct (_get_onset_names d'); simpl; [|done].
    specialize (IH Hd). destruct (onset_names_of_list l); done.
Qed.

(** C6: an object that is neither a set nor a parameter, variable,
    constraint or objective makes [_get_onset_names] raise the
    unknown-entity-type [ValueError]; the error is raised by the very call
    that receives the object (a call depth of one is enough) and no list
    of labels is produced. *)
Theorem unknown_entity_raises (o : pyobj) :
  is_entity o = false ->
  _get_onset_names o = Raise (ValueError "Unknown entity type!")
  /\ _get_onset_names_fuel 1 o = Some (Raise (ValueError "Unknown entity type!"))
  /\ (forall labels, _get_onset_names o <> Ok labels).
Proof.
  destruct o; try discriminate. intros _. by repeat split.
Qed.

Lemma unknown_entity_raises_witness :
  is_entity (POther "mapping" true) = false
  /\ _get_onset_names (POther "mapping" true)
     = Raise (ValueError "Unknown entity type!").
Proof.
  split; [reflexivity|].
  apply (unknown_entity_raises (POther "mapping" true)). reflexivity.
Defined.

(** *** Termination *)

Lemma wf_components_dims (domains : list pyobj) (d : pyobj) :
  wf_components domains = true -> d ∈ domains ->
  is_set d = true /\ 1 <= dim_of d
  /\ dim_of d + Z.of_nat (length domains) - 1 <= sum_dims domains.
Proof.
  intros Hwf Hin. revert Hwf.
  induction Hin as [d l|d d' l _ IH]; simpl; intros Hwf;
    repeat (apply andb_prop in Hwf as [Hwf ?]).
  - assert (Z.of_nat (length l) <= sum_dims l) as Hl.
    { clear -H. induction l as [|x l IHl]; simpl in *; [lia|].
      repeat (apply andb_prop in H as [H ?]). specialize (IHl H0). lia. }
    repeat split; [done|lia|lia].
  - destruct IH as (? & ? & ?); [done|]. repeat split; [done|done|lia].
Qed.

(** The call of line 224 is on an index set of the same dimension as the
    parameter it indexes. *)
Lemma capacity_calls_plants :
  calls Examples.capacity Examples.plants
  /\ dim_of Examples.plants = dim_of Examples.capacity.
Proof. split; [by constructor|done]. Qed.

(** C8, as stated, fails: the recursive call from a parameter, variable,
    constraint or objective to its index set does not lower the
    dimension. *)
Lemma onset_names_terminates_counterexample :
  ~ ((forall E, exists fuel r, _get_onset_names_fuel fuel E = Some r)
     /\ (forall parent child, calls parent child ->
           dim_of child <= dim_of parent - 1)).
Proof.
  intros [_ H]. destruct capacity_calls_plants as [Hc Heq].
  specialize (H _ _ Hc). lia.
Qed.

(** C8, amended: [_get_onset_names] terminates on every entity, however
    deep its domains are nested, because each recursive call is on an
    object nested strictly inside its parent (a component set, or the
    index set).  On a well-formed entity, the call from a
    multi-dimensional set is on a component set whose dimension is
    smaller by at least one; the call from a parameter, variable,
    constraint or objective is on its index set, which has the same
    dimension. *)
Theorem onset_names_terminates (E : pyobj) :
  (forall fuel, (depth E < fuel)%nat ->
     _get_onset_names_fuel fuel E = Some (_get_onset_names E))
  /\ (forall child, calls E child -> (depth child < depth E)%nat)
  /\ (wf_entity E = true -> forall child, calls E child ->
        is_set child = true
        /\ if is_set E then 1 <= dim_of child <= dim_of E - 1
           else dim_of child = dim_of E).
Proof.
  split; [intros; by apply fuel_enough|].
  split; [intros; by apply calls_depth|].
  intros Hwf child Hcall.
  destruct Hcall as [name doc dimen domain st virtual value domains child Hd Hdom Hin
                    |k name doc dim i items Hd Ht].
  - rewrite wf_entity_PSet, Hdom in Hwf.
    apply Z.ltb_lt in Hd as Hd'. rewrite Hd' in Hwf.
    repeat (apply andb_prop in Hwf as [Hwf ?]).
    destruct (wf_components_dims _ _ H0 Hin) as (? & ? & ?).
    apply Nat.leb_le in Hwf. apply Z.eqb_eq in H. simpl. split; [done|lia].
  - simpl in Hwf. apply Z.ltb_lt in Hd as Hd'. rewrite Hd' in Hwf.
    repeat (apply andb_prop in Hwf as [Hwf ?]).
    apply Z.eqb_eq in H. simpl. done.
Qed.

Lemma onset_names_terminates_witness :
  (depth Examples.distance < 4)%nat
  /\ _get_onset_names_fuel 4 Examples.distance
     = Some (_get_onset_names Examples.distance)
  /\ wf_entity Examples.plants_markets = true
  /\ calls Examples.plants_markets Examples.markets
  /\ 1 <= dim_of Examples.markets <= dim_of Examples.plants_markets - 1.
Proof.
  assert (calls Examples.plants_markets Examples.markets) as Hc.
  { eapply calls_component; [done|reflexivity|].
    apply list_elem_of_further, list_elem_of_here. }
  split; [simpl; lia|].
  split; [apply (onset_names_terminates Examples.distance); simpl; lia|].
  split; [reflexivity|]. split; [exact Hc|].
  apply (onset_names_terminates Examples.plants_markets); [reflexivity|exact Hc].
Defined.

(** ** The duplicate scan *)

Lemma dedup_step_length (labels : list string) (k : nat) :
  length (dedup_step labels k) = length labels.
Proof.
  unfold dedup_step. destruct (labels !! k); [|done].
  case_bool_decide; [apply length_insert|done].
Qed.

Lemma foldl_dedup_length (ks : list nat) (labels : list string) :
  length (foldl dedup_step labels ks) = length labels.
Proof.
  revert labels. induction ks as [|k ks IH]; intros labels; simpl; [done|].
  by rewrite IH, dedup_step_length.
Qed.

(** The scan keeps the number of labels. *)
Lemma dedup_labels_length (labels : list string) :
  length (dedup_labels labels) = length labels.
Proof. apply foldl_dedup_length. Qed.

(** One round touches position [k] only, and appends one marker. *)
Lemma dedup_step_lookup (labels : list string) (k j : nat) :
  dedup_step labels k !! j = labels !! j
  \/ (j = k /\ exists x, labels !! j = Some x
                         /\ dedup_step labels k !! j = Some (x +:+ "_")).
Proof.
  unfold dedup_step. destruct (labels !! k) as [x|] eqn:Hk; [|by left].
  case_bool_decide; [|by left].
  destruct (decide (j = k)) as [->|Hne].
  - right. split; [done|]. exists x. split; [done|].
    apply list_lookup_insert_eq. by eapply lookup_lt_Some.
  - left. by apply list_lookup_insert_ne.
Qed.

Lemma foldl_dedup_lookup (ks : list nat) :
  NoDup ks -> forall (labels : list string) (j : nat),
  foldl dedup_step labels ks !! j = labels !! j
  \/ (j ∈ ks /\ exists x, labels !! j = Some x
        /\ foldl dedup_step labels ks !! j = Some (x +:+ "_")).
Proof.
  induction 1 as [|k ks Hk _ IH]; intros labels j; simpl; [by left|].
  destruct (IH (dedup_step labels k) j) as [Hsame|(Hin & x & Hx & Hres)];
    destruct (dedup_step_lookup labels k j) as [Hstep|(-> & y & Hy & Hstep)].
  - left. congruence.
  - right. split; [apply list_elem_of_here|]. exists y. split; [done|congruence].
  - right. split; [by apply list_elem_of_further|]. exists x.
    split; [congruence|done].
  - done.
Qed.

(** Every label after the scan is the label before it, with at most one
    marker appended; the first label is never changed. *)
Lemma dedup_labels_lookup (labels : list string) (j : nat) (x : string) :
  labels !! j = Some x ->
  dedup_labels labels !! j = Some x
  \/ dedup_labels labels !! j = Some (x +:+ "_").
Proof.
  intros Hj. unfold dedup_labels.
  destruct (foldl_dedup_lookup (seq 0 (length labels)) (NoDup_seq _ _) labels j)
    as [->|(_ & y & Hy & ->)]; [by left|].
  right. congruence.
Qed.

(** The example of the source comment. *)
Lemma dedup_labels_example :
  dedup_labels ["sit"; "sit"; "com"] = ["sit"; "sit_"; "com"].
Proof. reflexivity. Qed.

(** C2 on the code: a label that occurs three times gets the same single
    marker at its second and at its third position, so the list after the
    scan still holds a duplicate. *)
Theorem dedup_labels_leaves_duplicates :
  _get_onset_names Examples.flow = Ok ["sit"; "sit"; "sit"]
  /\ dedup_labels ["sit"; "sit"; "sit"] = ["sit"; "sit_"; "sit_"]
  /\ ~ NoDup (dedup_labels ["sit"; "sit"; "sit"]).
Proof.
  split; [reflexivity|]. split; [reflexivity|].
  change (dedup_labels ["sit"; "sit"; "sit"]) with ["sit"; "sit_"; "sit_"].
  intros Hnd. apply NoDup_cons in Hnd as [_ Hnd].
  apply NoDup_cons in Hnd as [Hnot _]. apply Hnot, list_elem_of_here.
Qed.

(** ** [get_entity] *)

Lemma width_uniform (n : nat) (rows : list (list pyval)) :
  rows <> [] -> Forall (fun row => length row = n) rows -> width rows = n.
Proof.
  intros Hne Hall. induction Hall as [|row rows Hrow Hall IH]; [done|].
  simpl. destruct rows as [|row' rows]; simpl in *; [lia|].
  rewrite IH by done. lia.
Qed.

(** Rows of one length are not padded. *)
Lemma pd_DataFrame_uniform (n : nat) (rows : list (list pyval)) :
  Forall (fun row => length row = n) rows -> pd_DataFrame rows = rows.
Proof.
  intros Hall. destruct (decide (rows = [])) as [->|Hne]; [done|].
  unfold pd_DataFrame. rewrite (width_uniform n) by done.
  induction Hall as [|row rows Hrow Hall IH]; [done|].
  simpl. f_equal.
  - unfold pad. rewrite Hrow, Nat.sub_diag. apply app_nil_r.
  - destruct (decide (rows = [])) as [->|Hne']; [done|by apply IH].
Qed.

Lemma pd_DataFrame_nil (rows : list (list pyval)) :
  pd_DataFrame rows = [] <-> rows = [].
Proof. unfold pd_DataFrame. split; [apply fmap_nil_inv|by intros ->]. Qed.

(** *** Selecting columns by name *)

Lemma positions_none (key : string) (columns : list string) (i : nat) :
  key ∉ columns -> positions key columns i = [].
Proof.
  revert i. induction columns as [|c columns IH]; intros i Hnot; simpl; [done|].
  apply not_elem_of_cons in Hnot as [Hne Hnot].
  destruct (String.eqb_spec c key) as [->|_]; [done|by apply IH].
Qed.

Lemma positions_once (columns : list string) :
  NoDup columns -> forall (j : nat) (key : string) (i : nat),
  columns !! j = Some key -> positions key columns i = [(i + j)%nat].
Proof.
  induction 1 as [|c columns Hc _ IH]; intros j key i Hj; [done|].
  simpl. destruct j as [|j]; simpl in Hj.
  - injection Hj as ->. rewrite String.eqb_refl, positions_none by done.
    by rewrite Nat.add_0_r.
  - destruct (String.eqb_spec c key) as [->|_].
    + exfalso. apply Hc. by eapply list_elem_of_lookup_2.
    + rewrite (IH j key (S i) Hj). f_equal. lia.
Qed.

Lemma index_column_once (columns : list string) (j : nat) (key : string) :
  NoDup columns -> columns !! j = Some key -> index_column key columns = Ok j.
Proof.
  intros Hnd Hj. unfold index_column.
  by rewrite (positions_once columns Hnd j key 0 Hj).
Qed.

Lemma mapM_index_column (columns : list string) :
  NoDup columns -> forall (keys : list string) (off : nat),
  (forall idx k, keys !! idx = Some k -> columns !! (off + idx)%nat = Some k) ->
  mapM (fun label => index_column label columns) keys
  = Ok (seq off (length keys)).
Proof.
  intros Hnd keys. induction keys as [|k keys IH]; intros off Hkeys; [done|].
  simpl. rewrite (index_column_once columns off k Hnd).
  - simpl. rewrite (IH (S off)); [done|].
    intros idx k' Hk'. replace (S off + idx)%nat with (off + S idx)%nat by lia.
    by apply Hkeys.
  - specialize (Hkeys 0%nat k eq_refl). by rewrite Nat.add_0_r in Hkeys.
Qed.

Lemma filter_keys_dropped (labels l : list string) (off : nat) :
  Forall (fun x => x ∈ labels) l ->
  filter (fun cn : string * nat => cn.1 ∉ labels) (zip l (seq off (length l)))
  = [].
Proof.
  revert off. induction l as [|x l IH]; intros off Hall; [done|].
  apply Forall_cons in Hall as [Hx Hall]. simpl.
  rewrite filter_cons_False by (simpl; tauto). by apply IH.
Qed.

Lemma set_index_distinct (labels : list string) (name : string) :
  NoDup (labels ++ [name]) ->
  set_index (labels ++ [name]) labels
  = Ok (seq 0 (length labels), [(name, length labels)]).
Proof.
  intros Hnd. unfold set_index.
  rewrite (mapM_index_column _ Hnd labels 0)
    by (intros idx k Hk; by apply lookup_app_l_Some).
  simpl. do 2 f_equal.
  rewrite length_app. simpl. rewrite seq_app. simpl.
  rewrite zip_with_app by (by rewrite length_seq).
  rewrite filter_app, filter_keys_dropped by (by apply Forall_forall).
  simpl. apply NoDup_app in Hnd as (_ & Hnot & _).
  rewrite filter_cons_True; [done|]. simpl. intros Hin.
  apply (Hnot name Hin), list_elem_of_here.
Qed.

Lemma cells_at_seq (row : list pyval) (n : nat) :
  (n <= length row)%nat ->
  (fun i => default VNone (row !! i)) <$> seq 0 n = take n row.
Proof.
  intros Hn. apply list_eq. intros i.
  rewrite list_lookup_fmap. destruct (decide (i < n)%nat) as [Hi|Hi].
  - rewrite lookup_seq_lt by done. rewrite lookup_take_lt by done. simpl.
    destruct (lookup_lt_is_Some_2 row i) as [x Hx]; [lia|]. by rewrite Hx.
  - rewrite lookup_seq_ge by lia. rewrite lookup_take_ge by lia. done.
Qed.

(** With pairwise different names, the keys select the leading columns
    and [name] the last one. *)
Lemma to_series_distinct (frame : list (list pyval)) (labels : list string)
    (name : string) :
  NoDup (labels ++ [name]) ->
  Forall (fun row => length row = S (length labels)) frame ->
  to_series frame labels name
  = Ok (Series labels name
          ((fun row => (take (length labels) row,
                        default VNone (last row))) <$> frame)).
Proof.
  intros Hnd Hall. unfold to_series. rewrite set_index_distinct by done.
  simpl. unfold getitem. rewrite filter_cons_True by done. simpl.
  unfold series_at. do 2 f_equal. apply Forall_fmap_ext_1.
  eapply Forall_impl; [exact Hall|]. simpl. intros row Hrow.
  rewrite cells_at_seq by lia. f_equal.
  rewrite last_lookup, Hrow. done.
Qed.

Lemma positions_length (key : string) (columns : list string) (i : nat) :
  length (positions key columns i) = count_occ String.string_dec columns key.
Proof.
  revert i. induction columns as [|c columns IH]; intros i; [done|].
  cbn [positions count_occ].
  destruct (String.string_dec c key) as [->|Hneq].
  - rewrite String.eqb_refl. simpl. by rewrite IH.
  - apply String.eqb_neq in Hneq. by rewrite Hneq.
Qed.

Lemma mapM_Ok_elem {A B : Type} (f : A -> res B) (l : list A) (k : list B)
    (x : A) :
  mapM f l = Ok k -> x ∈ l -> exists y, f x = Ok y.
Proof.
  revert k. induction l as [|a l IH]; intros k H Hin; simpl in H.
  - by apply elem_of_nil in Hin.
  - destruct (f a) as [b|] eqn:Ha; simpl in H; [|discriminate].
    destruct (mapM f l) as [k'|]; simpl in H; [|discriminate].
    apply elem_of_cons in Hin as [->|Hin]; [by eexists|by eapply IH].
Qed.

(** A series comes out only under pairwise different names: a name
    carried by two columns makes a key of [set_index] select both. *)
Lemma to_series_names (frame : list (list pyval)) (labels : list string)
    (name : string) (s : series) :
  to_series frame labels name = Ok s -> NoDup (labels ++ [name]).
Proof.
  unfold to_series, set_index.
  destruct (mapM _ labels) as [keys|] eqn:Hkeys; simpl; [|discriminate].
  intros _.
  assert (forall label, label ∈ labels ->
            count_occ String.string_dec (labels ++ [name]) label = 1%nat)
    as Hone.
  { intros label Hin.
    destruct (mapM_Ok_elem _ _ _ label Hkeys Hin) as [j Hj].
    unfold index_column in Hj. rewrite <- (positions_length label _ 0).
    by destruct (positions label (labels ++ [name]) 0) as [|? [|? ?]]. }
  apply NoDup_ListNoDup, NoDup_count_occ with (decA := String.string_dec).
  intros x. destruct (decide (x ∈ labels)) as [Hin|Hnot].
  - by rewrite Hone.
  - rewrite count_occ_app.
    replace (count_occ String.string_dec labels x) with 0%nat.
    + cbn [count_occ]. destruct (String.string_dec name x); simpl; lia.
    + symmetry. apply count_occ_not_In. by rewrite <- list_elem_of_In.
Qed.

(** The steps of [get_entity] once the entity, its labels and its rows
    are known. *)
Lemma get_entity_eq (inst : instance) (name : string) (entity : pyobj)
    (labels : list string) (rows : list (list pyval)) :
  getattribute inst name = Ok entity ->
  _get_onset_names entity = Ok labels ->
  entity_rows entity = Ok rows ->
  get_entity inst name =
  let results := pd_DataFrame rows in
  let labels' := dedup_labels (rename_unlabelled entity labels name).1 in
  let name' := (rename_unlabelled entity labels name).2 in
  if bool_decide (results = []) then Ok EmptyFrame
  else
    results ← set_columns results (labels' ++ [name']);
    s ← to_series results labels' name';
    Ok (ASeries s).
Proof.
  intros Hget Hlab Hrows. unfold get_entity.
  rewrite Hget. simpl. rewrite Hlab. simpl. rewrite Hrows. simpl.
  by destruct (rename_unlabelled entity labels name).
Qed.

(** An entity without elements yields no row. *)
Lemma entity_rows_none (entity : pyobj) :
  is_entity entity = true -> row_count entity = O ->
  entity_rows entity = Ok [].
Proof.
  destruct entity as [? ? ? ? ? ? value|k ? ? dim ? items|]; simpl;
    try discriminate; intros _ Hlen.
  - by destruct value.
  - destruct items; [|discriminate]. destruct k, (1 <? dim); done.
Qed.

(** An entity with an element yields a row, if it yields rows at all. *)
Lemma entity_rows_some (entity : pyobj) (rows : list (list pyval)) :
  entity_rows entity = Ok rows -> (0 < row_count entity)%nat -> rows <> [].
Proof.
  destruct entity as [? ? ? ? ? ? value|k ? ? dim ? items|]; simpl;
    [| |discriminate].
  - intros [= <-] Hlen. by destruct value; [simpl in Hlen; lia|].
  - intros Hrows Hlen. destruct items as [|item items]; [simpl in Hlen; lia|].
    intros ->.
    assert ((if 1 <? dim
             then mapM (fun v => concat_index v.1 v.2) (item :: items)
             else Ok ((fun v => [v.1; v.2]) <$> item :: items))
            = Ok ([] : list (list pyval))) as Hrows'
      by (destruct k; exact Hrows).
    clear Hrows. destruct (1 <? dim); [|discriminate].
    simpl in Hrows'. destruct (concat_index item.1 item.2); simpl in Hrows';
      [|discriminate].
    destruct (mapM _ items); simpl in Hrows'; discriminate.
Qed.

(** *** Entities without elements *)



Lemma links_raises :
  getattribute Examples.sparse "links" = Ok Examples.links
  /\ is_entity Examples.links = true
  /\ row_count Examples.links = O
  /\ get_entity Examples.sparse "links" = Raise (AttributeError "set_tuple").
Proof. done. Qed.


(** With labels and no row, the empty table is returned as it is. *)
Lemma get_entity_no_rows (inst : instance) (name : string) (entity : pyobj)
    (labels : list string) :
  getattribute inst name = Ok entity ->
  _get_onset_names entity = Ok labels ->
  row_count entity = O ->
  get_entity inst name = Ok EmptyFrame.
Proof.
  intros Hget Hlab Hrows.
  assert (is_entity entity = true) as Hent.
  { destruct entity; [done|done|discriminate]. }
  by rewrite (get_entity_eq inst name entity labels [])
    by auto using entity_rows_none.
Qed.



(** *** The type of the result *)

(** With one cell per label and one for the value in every row, and
    pairwise different names for the columns, the columns can be named
    and the series is built: the leading cells of a row are its index
    cells, the last one is its value. *)
Lemma get_entity_series (inst : instance) (name : string) (entity : pyobj)
    (labels : list string) (rows : list (list pyval)) :
  getattribute inst name = Ok entity ->
  _get_onset_names entity = Ok labels ->
  entity_rows entity = Ok rows ->
  rows <> [] ->
  Forall (fun row =>
            length row = S (length (rename_unlabelled entity labels name).1))
         rows ->
  NoDup (dedup_labels (rename_unlabelled entity labels name).1
         ++ [(rename_unlabelled entity labels name).2]) ->
  get_entity inst name =
  Ok (ASeries
        (Series (dedup_labels (rename_unlabelled entity labels name).1)
                (rename_unlabelled entity labels name).2
                ((fun row =>
                    (take (length (rename_unlabelled entity labels name).1)
                          row,
                     default VNone (last row))) <$> rows))).
Proof.
  intros Hget Hlab Hrows Hne Hall Hnd.
  rewrite (get_entity_eq inst name entity labels rows) by done.
  simpl. rewrite (pd_DataFrame_uniform _ _ Hall).
  rewrite bool_decide_eq_false_2 by done.
  unfold set_columns. rewrite (width_uniform _ _ Hne Hall).
  rewrite length_app, dedup_labels_length. simpl.
  replace (length (rename_unlabelled entity labels name).1 + 1)%nat
    with (S (length (rename_unlabelled entity labels name).1)) by lia.
  rewrite Nat.eqb_refl. simpl.
  rewrite to_series_distinct;
    [by rewrite dedup_labels_length|done|by rewrite dedup_labels_length].
Qed.

(** C10 on the code: an entity that holds a row need not come back as
    a series.  A scalar objective has one item, under the index [None]:
    two cells for a single column name.  A set of pairs has two cells
    per row (the pair and the marker) for three column names, where the
    branch of the parameters flattens the index.  In both cases naming
    the columns raises. *)
Theorem get_entity_nonempty_raises :
  row_count Examples.obj_cost = 1%nat
  /\ _get_onset_names Examples.obj_cost = Ok []
  /\ get_entity Examples.transport "obj_cost"
     = Raise (ValueError "Length mismatch")
  /\ row_count Examples.plants_markets = 6%nat
  /\ _get_onset_names Examples.plants_markets = Ok ["plants"; "markets"]
  /\ get_entity Examples.grid "routes" = Raise (ValueError "Length mismatch")
  /\ ~ (forall inst name entity,
          getattribute inst name = Ok entity ->
          is_entity entity = true ->
          (0 < row_count entity)%nat ->
          exists s, get_entity inst name = Ok (ASeries s)).
Proof.
  repeat (split; [reflexivity|]).
  intros H.
  destruct (H Examples.transport "obj_cost" Examples.obj_cost)
    as [s Hs]; [done|done|simpl; lia|].
  discriminate.
Qed.

(** *** Sets without a parent domain *)

Lemma append_marker_neq (name : string) : name <> name +:+ "_".
Proof.
  induction name as [|a name IH]; simpl; [done|].
  intros [= H]. by apply IH.
Qed.

(** C3 on the code: for a one-dimensional set without a parent domain
    the label derived is the name of the set itself, so the list of
    labels is not empty, the branch of lines 42 to 44 is not taken, and
    the value column keeps the name asked for, without the marker: the
    columns are named by the set and by the name asked for, which for a
    set of the model are the same name. *)
Theorem unrestricted_set_not_renamed (name sname : string)
    (doc : option string) (domain : option pyobj)
    (set_tuple : option (list pyobj)) (virtual : bool) (value : list pyval) :
  truthy domain = false ->
  let S := PSet sname doc 1 domain set_tuple virtual value in
  _get_onset_names S = Ok [sname]
  /\ rename_unlabelled S [sname] name = ([sname], name)
  /\ (rename_unlabelled S [sname] name).2 <> name +:+ "_"
  /\ dedup_labels (rename_unlabelled S [sname] name).1
       ++ [(rename_unlabelled S [sname] name).2] = [sname; name].
Proof.
  intros Hdom S. split.
  - unfold S. rewrite _get_onset_names_eq. simpl. by rewrite Hdom.
  - split; [done|]. split; [apply append_marker_neq|done].
Qed.

Lemma unrestricted_set_not_renamed_witness :
  _get_onset_names Examples.plants = Ok ["plants"]
  /\ rename_unlabelled Examples.plants ["plants"] "plants"
     = (["plants"], "plants")
  /\ (rename_unlabelled Examples.plants ["plants"] "plants").2
     <> "plants" +:+ "_"
  /\ dedup_labels (rename_unlabelled Examples.plants ["plants"] "plants").1
       ++ [(rename_unlabelled Examples.plants ["plants"] "plants").2]
     = ["plants"; "plants"].
Proof.
  apply (unrestricted_set_not_renamed "plants" "plants" None None None false
           [VStr "Seattle"; VStr "San-Diego"]).
  reflexivity.
Defined.

(** *** One-dimensional parameters *)





(** ** [get_entities] *)

Section JoinerFacts.

Variable join : dframe -> table -> res dframe.

(** Whatever the join does to the names of the index levels, a
    completed step leaves the names the running table had. *)
Lemma combine_index_names (df df' : dframe) (other : table) :
  df_empty df = false ->
  combine join df other = Ok df' ->
  df_index_names df' = df_index_names df.
Proof.
  intros Hne. unfold combine. rewrite Hne.
  destruct (join df other) as [joined|e]; simpl; [|discriminate].
  case_bool_decide as Hnames.
  - unfold set_index_names. destruct (_ =? _)%nat; [|discriminate].
    by intros [= <-].
  - by intros [= <-].
Qed.

(** C4, amended: when an entity is joined into the running combined
    table, which is not empty, and the join keeps the number of index
    levels, the step returns the joined table with the level names the
    running table had before the join: names changed by the join are
    restored, columns and rows are those of the join.  When the join
    changes the number of index levels, assigning the names of before
    raises [ValueError] and no table is returned. *)
Theorem combine_restores_index_names (df joined : dframe) (other : table) :
  df_empty df = false ->
  join df other = Ok joined ->
  (length (df_index_names joined) = length (df_index_names df) ->
   combine join df other
   = Ok (DFrame (df_index_names df) (df_columns joined) (df_rows joined)))
  /\ (length (df_index_names joined) <> length (df_index_names df) ->
      combine join df other
      = Raise (ValueError "Length of new names must match number of levels")).
Proof.
  intros Hne Hjoin. unfold combine. rewrite Hne, Hjoin. simpl. split.
  - intros Hlen. case_bool_decide as Hnames.
    + unfold set_index_names. by rewrite Hlen, Nat.eqb_refl.
    + rewrite Hnames. by destruct joined.
  - intros Hlen. rewrite bool_decide_eq_true_2 by congruence.
    unfold set_index_names.
    destruct (_ =? _)%nat eqn:Heq; [|done].
    apply Nat.eqb_eq in Heq. congruence.
Qed.

(** With a join that keeps the table non-empty, the names of the index
    levels of the running table are those of the result of the whole
    loop. *)
Lemma get_entities_from_index_names (inst : instance) (names : list string) :
  (forall df other df', df_empty df = false -> join df other = Ok df' ->
                        df_empty df' = false) ->
  forall df df', df_empty df = false ->
  get_entities_from join inst df names = Ok df' ->
  df_index_names df' = df_index_names df.
Proof.
  intros Hjoin. induction names as [|name names IH]; intros df df' Hne; simpl.
  - by intros [= <-].
  - destruct (get_entity inst name) as [other|e]; simpl; [|discriminate].
    destruct (combine join df other) as [df1|e] eqn:Hstep; simpl;
      [|discriminate].
    intros Hrest.
    pose proof (combine_index_names df df1 other Hne Hstep) as Hnames.
    rewrite <- Hnames. apply IH; [|done].
    clear -Hjoin Hne Hstep. unfold combine in Hstep. rewrite Hne in Hstep.
    destruct (join df other) as [joined|e] eqn:Hj; simpl in Hstep;
      [|discriminate].
    pose proof (Hjoin _ _ _ Hne Hj) as Hjne.
    case_bool_decide; [|by injection Hstep as <-].
    unfold set_index_names in Hstep.
    destruct (_ =? _)%nat; [|discriminate]. by injection Hstep as <-.
Qed.

End JoinerFacts.

(** C4, as stated, fails: a table indexed by [plants], joined with a
    series indexed by [plants] and [markets], gets a second index level;
    the single name of before does not fit the two levels and the step
    raises instead of restoring. *)
Lemma combine_restores_index_names_counterexample :
  ~ (forall (join : dframe -> table -> res dframe) df other joined,
       df_empty df = false ->
       join df other = Ok joined ->
       exists df', combine join df other = Ok df'
                   /\ df_index_names df' = df_index_names df).
Proof.
  intros H.
  destruct (H Examples.level_adding_join Examples.capacity_frame
              Examples.distance_series _ eq_refl eq_refl) as (df' & Hrun & _).
  discriminate.
Qed.

Lemma combine_restores_index_names_witness :
  Examples.forgetful_join Examples.capacity_frame Examples.demand_series
  = Ok Examples.joined_frame
  /\ df_index_names Examples.joined_frame = [None]
  /\ combine Examples.forgetful_join Examples.capacity_frame
             Examples.demand_series
     = Ok (DFrame [Some "plants"] (df_columns Examples.joined_frame)
                  (df_rows Examples.joined_frame))
  /\ combine Examples.level_adding_join Examples.capacity_frame
             Examples.distance_series
     = Raise (ValueError "Length of new names must match number of levels").
Proof.
  split; [reflexivity|]. split; [reflexivity|]. split.
  - apply (combine_restores_index_names Examples.forgetful_join
             Examples.capacity_frame Examples.joined_frame
             Examples.demand_series); reflexivity.
  - eapply (combine_restores_index_names Examples.level_adding_join
              Examples.capacity_frame _ Examples.distance_series).
    + reflexivity.
    + reflexivity.
    + simpl. lia.
Defined.

(** ** [list_entities] *)




Lemma insert_by_name_not_nil (x : listing) (l : list listing) :
  insert_by_name x l <> [].
Proof. destruct l; simpl; [done|]. by destruct (String.leb _ _). Qed.

Lemma sorted_nil (l : list listing) : sorted l = [] <-> l = [].
Proof.
  destruct l as [|x l]; [done|]. simpl. split; [|done].
  intros H. by apply insert_by_name_not_nil in H.
Qed.







(** * Further properties of the module *)

(** ** Label derivation over component lists *)

Lemma onset_names_of_list_app (l1 l2 : list pyobj) :
  onset_names_of_list (l1 ++ l2) =
  a ← onset_names_of_list l1; b ← onset_names_of_list l2; Ok (a ++ b).
Proof.
  induction l1 as [|d l1 IH]; simpl.
  - by destruct (onset_names_of_list l2).
  - rewrite IH. destruct (_get_onset_names d); simpl; [|done].
    destruct (onset_names_of_list l1); simpl; [|done].
    destruct (onset_names_of_list l2); simpl; [|done].
    by rewrite app_assoc.
Qed.

(** X1: the labels of a set of dimension above one follow the order of
    its component list: when the list splits in two, the labels are those
    of the first part followed by those of the second, and an error in
    the first part is the error of the whole. *)
Theorem onset_names_concat name doc dimen domain set_tuple virtual value
    (l1 l2 : list pyobj) :
  1 < dimen ->
  domains_of domain set_tuple = Ok (l1 ++ l2) ->
  _get_onset_names (PSet name doc dimen domain set_tuple virtual value) =
  a ← onset_names_of_list l1; b ← onset_names_of_list l2; Ok (a ++ b).
Proof.
  intros Hd Hdom. rewrite _get_onset_names_eq.
  apply Z.ltb_lt in Hd. rewrite Hd, Hdom. simpl.
  apply onset_names_of_list_app.
Qed.

Lemma onset_names_concat_witness :
  _get_onset_names Examples.sit3 =
  a ← onset_names_of_list [Examples.sit];
  b ← onset_names_of_list [Examples.sit; Examples.sit];
  Ok (a ++ b).
Proof.
  apply (onset_names_concat "flow_index" None 3 None
           (Some [Examples.sit; Examples.sit; Examples.sit]) true _
           [Examples.sit] [Examples.sit; Examples.sit]).
  - lia.
  - reflexivity.
Defined.

Lemma onset_names_plain_sets (domains : list pyobj) :
  Forall (fun d => is_set d = true /\ dim_of d = 1
                   /\ _get_onset_names d = Ok [obj_name d]) domains ->
  onset_names_of_list domains = Ok (obj_name <$> domains).
Proof.
  induction 1 as [|d l (_ & _ & Hd) _ IH]; simpl; [done|].
  by rewrite Hd, IH.
Qed.

(** X2: a set of dimension above one whose components are all
    one-dimensional sets without a parent domain is labelled by the names
    of these sets, in the order of the component list, whatever its own
    name and declared dimension are. *)
Theorem onset_names_product_of_plain_sets name doc dimen domain set_tuple
    virtual value (domains : list pyobj) :
  1 < dimen ->
  domains_of domain set_tuple = Ok domains ->
  Forall (fun d => exists n doc' dom st virt val,
            d = PSet n doc' 1 dom st virt val /\ truthy dom = false)
         domains ->
  _get_onset_names (PSet name doc dimen domain set_tuple virtual value)
  = Ok (obj_name <$> domains).
Proof.
  intros Hd Hdom Hplain. rewrite _get_onset_names_eq.
  apply Z.ltb_lt in Hd. rewrite Hd, Hdom. simpl.
  apply onset_names_plain_sets.
  eapply Forall_impl; [exact Hplain|]. simpl.
  intros d (n & doc' & dom & st & virt & val & -> & Hdomf).
  repeat split. rewrite _get_onset_names_eq. simpl. by rewrite Hdomf.
Qed.

Lemma onset_names_product_of_plain_sets_witness :
  _get_onset_names Examples.plants_markets = Ok ["plants"; "markets"].
Proof.
  apply (onset_names_product_of_plain_sets "distance_index" None 2 None
           (Some [Examples.plants; Examples.markets]) true Examples.routes
           [Examples.plants; Examples.markets]).
  - lia.
  - reflexivity.
  - repeat constructor; by repeat eexists.
Defined.

Lemma onset_names_of_list_raises (domains : list pyobj) (d : pyobj) :
  d ∈ domains -> raises (_get_onset_names d) ->
  raises (onset_names_of_list domains).
Proof.
  induction 1 as [d l|d d' l _ IH]; intros Hd; simpl.
  - by destruct (_get_onset_names d).
  - destruct (_get_onset_names d'); simpl; [|done].
    specialize (IH Hd). by destruct (onset_names_of_list l).
Qed.

(** X3: no partial label list: when the label derivation of one
    component of a set of dimension above one raises, whatever the
    position of the component, the derivation for the set raises as well,
    and so does the derivation for every parameter, variable, constraint
    or objective indexed by the set. *)
Theorem component_error_propagates name doc dimen domain set_tuple virtual
    value (domains : list pyobj) (d : pyobj) :
  1 < dimen ->
  domains_of domain set_tuple = Ok domains ->
  d ∈ domains ->
  raises (_get_onset_names d) ->
  raises (_get_onset_names (PSet name doc dimen domain set_tuple virtual value))
  /\ forall k pname pdoc items,
       value <> [] ->
       raises (_get_onset_names
                 (PIndexed k pname pdoc dimen
                    (Some (PSet name doc dimen domain set_tuple virtual value))
                    items)).
Proof.
  intros Hd Hdom Hin Hraise.
  assert (raises (_get_onset_names
                    (PSet name doc dimen domain set_tuple virtual value)))
    as Hset.
  { rewrite _get_onset_names_eq. apply Z.ltb_lt in Hd. rewrite Hd, Hdom.
    simpl. by apply (onset_names_of_list_raises domains d). }
  split; [exact Hset|].
  intros k pname pdoc items Hval.
  rewrite (_get_onset_names_eq (PIndexed _ _ _ _ _ _)).
  assert ((0 <? dimen) = true) as -> by (apply Z.ltb_lt; lia).
  assert (truthy (Some (PSet name doc dimen domain set_tuple virtual value))
          = true) as ->.
  { simpl. by destruct value. }
  exact Hset.
Qed.

Lemma component_error_propagates_witness :
  raises (_get_onset_names
            (PSet "mixed" None 2 None
                  (Some [Examples.plants; POther "mapping" true]) true
                  Examples.routes)).
Proof.
  refine (proj1 (component_error_propagates "mixed" None 2 None
           (Some [Examples.plants; POther "mapping" true]) true
           Examples.routes
           [Examples.plants; POther "mapping" true] (POther "mapping" true)
           _ _ _ _)).
  - lia.
  - reflexivity.
  - apply list_elem_of_further, list_elem_of_here.
  - exact I.
Defined.

(** ** The duplicate scan, position by position *)

Lemma dedup_step_app_l (labels : list string) (x : string) (k : nat) :
  (k < length labels)%nat ->
  dedup_step (labels ++ [x]) k = dedup_step labels k ++ [x].
Proof.
  intros Hk. unfold dedup_step.
  rewrite lookup_app_l by done. rewrite take_app_le by lia.
  destruct (labels !! k) as [label|]; [|done].
  case_bool_decide; [|done]. by rewrite insert_app_l.
Qed.

Lemma foldl_dedup_app (ks : list nat) :
  forall (labels : list string) (x : string),
  Forall (fun k => (k < length labels)%nat) ks ->
  foldl dedup_step (labels ++ [x]) ks = foldl dedup_step labels ks ++ [x].
Proof.
  induction ks as [|k ks IH]; intros labels x Hks; simpl; [done|].
  apply Forall_cons in Hks as [Hk Hks].
  rewrite dedup_step_app_l by done. apply IH.
  by rewrite dedup_step_length.
Qed.

(** The scan of a list with one more label: the scan of the list, then
    the label, marked when it occurs among the scanned labels. *)
Lemma dedup_labels_snoc (labels : list string) (x : string) :
  dedup_labels (labels ++ [x]) =
  dedup_labels labels
  ++ [if bool_decide (x ∈ dedup_labels labels) then x +:+ "_" else x].
Proof.
  unfold dedup_labels at 1. rewrite length_app. simpl.
  rewrite seq_app, foldl_app. simpl.
  rewrite foldl_dedup_app by (apply Forall_seq; lia).
  fold (dedup_labels labels).
  pose proof (dedup_labels_length labels) as Hlen.
  unfold dedup_step.
  rewrite lookup_app_r by lia. rewrite Hlen, Nat.sub_diag. simpl.
  rewrite take_app_length' by done.
  case_bool_decide; [|done].
  rewrite insert_app_r_alt by lia. by rewrite Hlen, Nat.sub_diag.
Qed.

(** X4: the scan keeps the number of labels, leaves the first label as
    it is, and turns every other label into itself or into itself
    followed by a single marker. *)
Theorem dedup_scan_pointwise (labels : list string) :
  length (dedup_labels labels) = length labels
  /\ dedup_labels labels !! 0%nat = labels !! 0%nat
  /\ forall (j : nat) (x : string),
       labels !! j = Some x ->
       dedup_labels labels !! j = Some x
       \/ dedup_labels labels !! j = Some (x +:+ "_").
Proof.
  split; [apply dedup_labels_length|]. split; [|apply dedup_labels_lookup].
  induction labels as [|x labels IH] using rev_ind; [done|].
  rewrite dedup_labels_snoc.
  destruct labels as [|y labels].
  - done.
  - rewrite lookup_app_l.
    + by rewrite IH.
    + rewrite dedup_labels_length. simpl. lia.
Qed.

Lemma dedup_scan_pointwise_witness :
  ["sit"; "sit"; "com"] !! 1%nat = Some "sit"
  /\ (dedup_labels ["sit"; "sit"; "com"] !! 1%nat = Some "sit"
      \/ dedup_labels ["sit"; "sit"; "com"] !! 1%nat = Some ("sit" +:+ "_")).
Proof.
  split; [reflexivity|].
  apply (dedup_scan_pointwise ["sit"; "sit"; "com"]). reflexivity.
Defined.

(** X5: labels that come later never change how earlier labels are
    marked: the scan of a list starts with the scan of each of its
    prefixes. *)
Theorem dedup_scan_prefix (l1 l2 : list string) :
  take (length l1) (dedup_labels (l1 ++ l2)) = dedup_labels l1.
Proof.
  induction l2 as [|x l2 IH] using rev_ind.
  - rewrite app_nil_r. apply take_ge. by rewrite dedup_labels_length.
  - rewrite app_assoc, dedup_labels_snoc.
    rewrite take_app_le; [done|].
    rewrite dedup_labels_length, length_app. lia.
Qed.

(** X6: labels that are pairwise different are left as they are. *)
Theorem dedup_scan_unique (labels : list string) :
  NoDup labels -> dedup_labels labels = labels.
Proof.
  induction labels as [|x labels IH] using rev_ind; intros Hnd; [done|].
  apply NoDup_app in Hnd as (Hnd & Hnot & _).
  rewrite dedup_labels_snoc, IH by done.
  rewrite bool_decide_eq_false_2; [done|].
  intros Hin. apply (Hnot x Hin), list_elem_of_here.
Qed.

Lemma dedup_scan_unique_witness :
  dedup_labels ["plants"; "markets"] = ["plants"; "markets"].
Proof.
  apply (dedup_scan_unique ["plants"; "markets"]).
  apply NoDup_cons. split.
  - intros Hin. apply list_elem_of_singleton in Hin. discriminate.
  - apply NoDup_singleton.
Defined.

Lemma append_marker_inj (x y : string) : x +:+ "_" = y +:+ "_" -> x = y.
Proof.
  revert y. induction x as [|a x IH]; intros [|b y] H; simpl in H.
  - done.
  - injection H as _ H. by destruct y.
  - injection H as _ H. by destruct x.
  - injection H as -> H. f_equal. by apply IH.
Qed.

Lemma count_occ_elem_of (labels : list string) (x : string) :
  x ∈ labels <-> (1 <= count_occ String.string_dec labels x)%nat.
Proof. rewrite list_elem_of_In. apply count_occ_In. Qed.

(** What the scan keeps true when no label is another label followed by
    the marker and no label occurs more than twice: the scanned labels
    are pairwise different, and a marked label stems from a label that
    occurs twice. *)
Lemma dedup_unique_inv (labels : list string) :
  (forall x y, x ∈ labels -> y ∈ labels -> x <> y +:+ "_") ->
  (forall x, (count_occ String.string_dec labels x <= 2)%nat) ->
  NoDup (dedup_labels labels)
  /\ forall y, y ∈ dedup_labels labels ->
       y ∈ labels
       \/ exists x, y = x +:+ "_"
                    /\ (2 <= count_occ String.string_dec labels x)%nat.
Proof.
  induction labels as [|x labels IH] using rev_ind; intros Hmark Hocc.
  - split; [apply NoDup_nil_2|]. intros y Hy. by apply elem_of_nil in Hy.
  - destruct IH as [Hnd Hfrom].
    { intros a b Ha Hb. apply Hmark; apply elem_of_app; by left. }
    { intros a. specialize (Hocc a). rewrite count_occ_app in Hocc. lia. }
    assert (forall a, count_occ String.string_dec (labels ++ [x]) a
                      = (count_occ String.string_dec labels a
                         + if String.string_dec x a then 1 else 0)%nat) as Hcount.
    { intros a. rewrite count_occ_app. simpl.
      by destruct (String.string_dec x a). }
    assert (x ∈ labels ++ [x]) as Hx
      by (apply elem_of_app; right; apply list_elem_of_here).
    assert (x ∈ dedup_labels labels -> x ∈ labels) as Hxin.
    { intros Hin. destruct (Hfrom x Hin) as [|(x0 & -> & Hx0)]; [done|].
      exfalso. apply (Hmark (x0 +:+ "_") x0); [done| |done].
      apply elem_of_app. left. apply count_occ_elem_of. lia. }
    rewrite dedup_labels_snoc. split.
    + apply NoDup_app. split; [done|]. split; [|apply NoDup_singleton].
      intros y Hy Hy'. apply list_elem_of_singleton in Hy'. subst y.
      case_bool_decide as Hin; [|done].
      destruct (Hfrom _ Hy) as [Hl|(x0 & Heq & Hx0)].
      * apply (Hmark (x +:+ "_") x); [|done|done].
        apply elem_of_app. by left.
      * apply append_marker_inj in Heq. subst x0.
        specialize (Hocc x). rewrite Hcount in Hocc.
        destruct (String.string_dec x x); [lia|done].
    + intros y Hy. apply elem_of_app in Hy as [Hy|Hy].
      * destruct (Hfrom y Hy) as [Hl|(x0 & Heq & Hx0)].
        -- left. apply elem_of_app. by left.
        -- right. exists x0. split; [done|]. rewrite Hcount. lia.
      * apply list_elem_of_singleton in Hy. subst y.
        case_bool_decide as Hin; [|by left].
        right. exists x. split; [done|]. rewrite Hcount.
        apply Hxin, count_occ_elem_of in Hin.
        destruct (String.string_dec x x); [lia|done].
Qed.

(** X7: when no label is another label followed by the marker and no
    label occurs more than twice, the labels are pairwise different after
    the scan. *)
Theorem dedup_scan_makes_unique (labels : list string) :
  (forall x y, x ∈ labels -> y ∈ labels -> x <> y +:+ "_") ->
  (forall x, (count_occ String.string_dec labels x <= 2)%nat) ->
  NoDup (dedup_labels labels).
Proof. intros Hmark Hocc. by apply dedup_unique_inv. Qed.

Lemma dedup_scan_makes_unique_witness :
  NoDup (dedup_labels ["sit"; "sit"; "com"]).
Proof.
  apply (dedup_scan_makes_unique ["sit"; "sit"; "com"]).
  - intros x y Hx Hy.
    repeat (apply elem_of_cons in Hx as [->|Hx]);
      try (by apply elem_of_nil in Hx);
      repeat (apply elem_of_cons in Hy as [->|Hy]);
      try (by apply elem_of_nil in Hy); discriminate.
  - intros x. cbn [count_occ].
    destruct (String.string_dec "sit" x), (String.string_dec "com" x);
      try congruence; lia.
Defined.

(** ** [get_entity]: names, errors and the shape of the result *)

Lemma getattribute_missing (inst : instance) (name : string) :
  name ∉ inst.*1 -> getattribute inst name = Raise (AttributeError name).
Proof.
  induction inst as [|[n o] inst IH]; simpl; [done|].
  intros Hnot. apply not_elem_of_cons in Hnot as [Hne Hnot].
  destruct (String.eqb_spec n name) as [->|_]; [done|by apply IH].
Qed.

Lemma getattribute_elem (inst : instance) (name : string) (o : pyobj) :
  getattribute inst name = Ok o -> (name, o) ∈ inst.
Proof.
  induction inst as [|[n o'] inst IH]; simpl; [discriminate|].
  destruct (String.eqb_spec n name) as [->|_].
  - intros [= ->]. apply list_elem_of_here.
  - intros H. by apply list_elem_of_further, IH.
Qed.

Lemma getattribute_unique (inst : instance) (name : string) (o : pyobj) :
  NoDup inst.*1 -> (name, o) ∈ inst -> getattribute inst name = Ok o.
Proof.
  induction inst as [|[n o'] inst IH]; simpl; intros Hnd Hin.
  - by apply elem_of_nil in Hin.
  - apply NoDup_cons in Hnd as [Hn Hnd].
    apply elem_of_cons in Hin as [[= -> ->]|Hin].
    + by rewrite String.eqb_refl.
    + destruct (String.eqb_spec n name) as [->|_]; [|by apply IH].
      exfalso. apply Hn. apply list_elem_of_fmap. by exists (name, o).
Qed.

(** X8: [get_entity] raises [AttributeError], naming the attribute, for
    a name the instance does not have, and the unknown-entity-type
    [ValueError] for an attribute that is neither a set nor a parameter,
    variable, constraint or objective. *)
Theorem get_entity_bad_name (inst : instance) (name : string) :
  (name ∉ inst.*1 -> get_entity inst name = Raise (AttributeError name))
  /\ (forall o, getattribute inst name = Ok o -> is_entity o = false ->
        get_entity inst name = Raise (ValueError "Unknown entity type!")).
Proof.
  split.
  - intros Hnot. unfold get_entity. by rewrite getattribute_missing.
  - intros o Hget Hno. unfold get_entity. rewrite Hget. simpl.
    by rewrite (other_object_raises o Hno).
Qed.

Lemma get_entity_bad_name_witness :
  get_entity Examples.transport "supply" = Raise (AttributeError "supply")
  /\ get_entity Examples.transport "name"
     = Raise (ValueError "Unknown entity type!").
Proof.
  split.
  - apply (proj1 (get_entity_bad_name Examples.transport "supply")).
    intros Hin. simpl in Hin.
    repeat (apply elem_of_cons in Hin as [Hin|Hin]; [discriminate|]).
    by apply elem_of_nil in Hin.
  - apply (proj2 (get_entity_bad_name Examples.transport "name")
             (POther "Transport" true)); reflexivity.
Defined.

Lemma mapM_concat_length (items : list (pyval * pyval))
    (rows : list (list pyval)) :
  mapM (fun v => concat_index v.1 v.2) items = Ok rows ->
  length rows = length items.
Proof.
  revert rows. induction items as [|item items IH]; intros rows H;
    simpl in H.
  - by injection H as <-.
  - destruct (concat_index item.1 item.2); simpl in H; [|discriminate].
    destruct (mapM _ items) as [rows'|]; simpl in H; [|discriminate].
    injection H as <-. simpl. f_equal. by apply IH.
Qed.

(** One row per element. *)
Lemma entity_rows_length (entity : pyobj) (rows : list (list pyval)) :
  entity_rows entity = Ok rows -> length rows = row_count entity.
Proof.
  destruct entity as [? ? ? ? ? ? value|k ? ? dim ? items|]; simpl;
    [| |discriminate].
  - intros [= <-]. apply length_fmap.
  - intros Hrows.
    assert ((if 1 <? dim
             then mapM (fun v => concat_index v.1 v.2) items
             else Ok ((fun v => [v.1; v.2]) <$> items))
            = Ok rows) as Hrows' by (destruct k; exact Hrows).
    destruct (1 <? dim).
    + by apply mapM_concat_length.
    + injection Hrows' as <-. apply length_fmap.
Qed.

Lemma width_bound (rows : list (list pyval)) :
  Forall (fun row => (length row <= width rows)%nat) rows.
Proof.
  induction rows as [|row rows IH]; [done|]. simpl. constructor; [lia|].
  eapply Forall_impl; [exact IH|]. simpl. intros; lia.
Qed.

(** Every row of the table has the width of the table. *)
Lemma pd_DataFrame_rows (rows : list (list pyval)) :
  Forall (fun row => length row = width rows) (pd_DataFrame rows).
Proof.
  unfold pd_DataFrame. apply Forall_fmap.
  eapply Forall_impl; [apply width_bound|]. simpl.
  intros row Hlen. unfold pad. rewrite length_app, length_replicate. lia.
Qed.

Lemma pd_DataFrame_width (rows : list (list pyval)) :
  width (pd_DataFrame rows) = width rows.
Proof.
  destruct (decide (rows = [])) as [->|Hne]; [done|].
  apply width_uniform; [by rewrite pd_DataFrame_nil|apply pd_DataFrame_rows].
Qed.

Lemma mapM_length {A B : Type} (f : A -> res B) (l : list A) (k : list B) :
  mapM f l = Ok k -> length k = length l.
Proof.
  revert k. induction l as [|x l IH]; intros k H; simpl in H.
  - by injection H as <-.
  - destruct (f x); simpl in H; [|discriminate].
    destruct (mapM f l) as [k'|]; simpl in H; [|discriminate].
    injection H as <-. simpl. f_equal. by apply IH.
Qed.

(** A series built from a table: its names, and the shape of its
    entries. *)
Lemma to_series_returns (frame : list (list pyval)) (labels : list string)
    (name : string) (s : series) :
  to_series frame labels name = Ok s ->
  index_names s = labels
  /\ series_name s = name
  /\ length (entries s) = length frame
  /\ Forall (fun e => length e.1 = length labels) (entries s).
Proof.
  unfold to_series, set_index.
  destruct (mapM _ labels) as [keys|] eqn:Hkeys; simpl; [|discriminate].
  destruct (getitem _ name) as [value|]; simpl; [|discriminate].
  intros [= <-]. simpl. rewrite length_fmap. repeat split.
  apply Forall_fmap, Forall_true. simpl. intros row.
  rewrite length_fmap. by apply mapM_length in Hkeys.
Qed.

(** What a returned result tells about the entity. *)
Lemma get_entity_returns (inst : instance) (name : string)
    (entity : pyobj) (t : table) :
  getattribute inst name = Ok entity ->
  get_entity inst name = Ok t ->
  match t with
  | EmptyFrame => row_count entity = O
  | ASeries s =>
      length (entries s) = row_count entity
      /\ (0 < row_count entity)%nat
      /\ Forall (fun e => length e.1 = length (index_names s)) (entries s)
      /\ exists labels,
           _get_onset_names entity = Ok labels
           /\ index_names s
              = dedup_labels (rename_unlabelled entity labels name).1
           /\ series_name s = (rename_unlabelled entity labels name).2
  end.
Proof.
  intros Hget Hrun.
  destruct (_get_onset_names entity) as [labels|e] eqn:Hlab;
    [|by unfold get_entity in Hrun; rewrite Hget in Hrun; simpl in Hrun;
        rewrite Hlab in Hrun].
  destruct (entity_rows entity) as [rows|e] eqn:Hrows;
    [|by unfold get_entity in Hrun; rewrite Hget in Hrun; simpl in Hrun;
        rewrite Hlab in Hrun; simpl in Hrun; rewrite Hrows in Hrun].
  rewrite (get_entity_eq inst name entity labels rows) in Hrun by done.
  simpl in Hrun. pose proof (entity_rows_length _ _ Hrows) as Hlen.
  case_bool_decide as Hempty.
  - injection Hrun as <-.
    assert (rows = []) as -> by (by apply pd_DataFrame_nil).
    by rewrite <- Hlen.
  - unfold set_columns in Hrun.
    destruct (_ =? _)%nat eqn:Hw; simpl in Hrun; [|discriminate].
    destruct (to_series _ _ _) as [s|] eqn:Hs; simpl in Hrun; [|discriminate].
    injection Hrun as <-.
    apply to_series_returns in Hs as (Hidx & Hname & Hent & Hcells).
    unfold pd_DataFrame in Hent. rewrite length_fmap in Hent.
    split; [congruence|]. split.
    { rewrite <- Hlen. destruct rows; [|simpl; lia].
      by exfalso; apply Hempty. }
    split; [by rewrite Hidx|by exists labels].
Qed.

(** X9: what a returned result tells about the entity.  The empty table
    is returned only for an entity without elements.  A series has one
    entry per element of the entity, at least one; each entry has one
    index cell per index level; the index levels are named by the
    scanned labels of the entity. *)
Theorem get_entity_result_shape (inst : instance) (name : string)
    (entity : pyobj) (t : table) :
  getattribute inst name = Ok entity ->
  get_entity inst name = Ok t ->
  match t with
  | EmptyFrame => row_count entity = O
  | ASeries s =>
      length (entries s) = row_count entity
      /\ (0 < row_count entity)%nat
      /\ Forall (fun e => length e.1 = length (index_names s)) (entries s)
      /\ exists labels,
           _get_onset_names entity = Ok labels
           /\ index_names s
              = dedup_labels (rename_unlabelled entity labels name).1
           /\ series_name s = (rename_unlabelled entity labels name).2
  end.
Proof. apply get_entity_returns. Qed.

Lemma get_entity_result_shape_witness :
  exists s, get_entity Examples.transport "distance" = Ok (ASeries s)
            /\ length (entries s) = 6%nat
            /\ Forall (fun e => length e.1 = length (index_names s))
                      (entries s).
Proof.
  eexists. split; [reflexivity|].
  pose proof (get_entity_result_shape Examples.transport "distance"
                Examples.distance _ eq_refl eq_refl) as (H1 & _ & H2 & _).
  split; [exact H1|exact H2].
Defined.

(** The rows of the components: one branch of the source for [Param],
    one for the others, with the same rows. *)
Lemma entity_rows_indexed (k : kind) (name : string) (doc : option string)
    (dim : Z) (idx : option pyobj) (items : list (pyval * pyval)) :
  entity_rows (PIndexed k name doc dim idx items) =
  if 1 <? dim then mapM (fun v => concat_index v.1 v.2) items
  else Ok ((fun v => [v.1; v.2]) <$> items).
Proof. by destruct k. Qed.

Lemma mapM_concat_tuples (n : nat) (items : list (pyval * pyval)) :
  Forall (fun kv => exists l, kv.1 = VTuple l /\ length l = n) items ->
  exists rows,
    mapM (fun v => concat_index v.1 v.2) items = Ok rows
    /\ Forall (fun row => length row = S n) rows
    /\ Forall2 (fun kv row => kv.1 = VTuple (take n row)
                              /\ last row = Some kv.2) items rows.
Proof.
  induction 1 as [|[key v] items (l & Hkey & Hl) _ (rows & Hrows & Hlen & Hall)].
  - exists []. by repeat split.
  - simpl in Hkey. subst key. exists ((l ++ [v]) :: rows). simpl.
    rewrite Hrows. simpl. split; [done|]. split.
    + constructor; [|done]. rewrite length_app. simpl. lia.
    + constructor; [|done]. simpl.
      rewrite take_app_length' by done. by rewrite last_snoc.
Qed.

(** X10: a parameter, variable, constraint or objective of dimension
    above one that holds items, each under a tuple with one component per
    label, whose scanned labels and name are pairwise different, is
    returned as a series named as asked, indexed under the scanned
    labels, whose entries are the items in their order: the components of
    the key, and the value. *)
Theorem get_entity_tuple_keys (inst : instance) (name pname : string)
    (k : kind) (doc : option string) (dim : Z) (idx : option pyobj)
    (items : list (pyval * pyval)) (labels : list string) :
  getattribute inst name = Ok (PIndexed k pname doc dim idx items) ->
  1 < dim ->
  _get_onset_names (PIndexed k pname doc dim idx items) = Ok labels ->
  items <> [] ->
  Forall (fun kv => exists l, kv.1 = VTuple l /\ length l = length labels)
         items ->
  NoDup (dedup_labels labels ++ [name]) ->
  exists s,
    get_entity inst name = Ok (ASeries s)
    /\ index_names s = dedup_labels labels
    /\ series_name s = name
    /\ Forall2 (fun kv e => kv.1 = VTuple e.1 /\ kv.2 = e.2)
               items (entries s).
Proof.
  intros Hget Hdim Hlab Hne Hkeys Hnd.
  destruct (mapM_concat_tuples _ _ Hkeys) as (rows & Hrows & Hlen & Hall).
  assert (entity_rows (PIndexed k pname doc dim idx items) = Ok rows)
    as Hent.
  { rewrite entity_rows_indexed. apply Z.ltb_lt in Hdim. by rewrite Hdim. }
  eexists. split.
  - apply (get_entity_series inst name _ labels rows Hget Hlab Hent).
    + intros ->. apply Forall2_nil_inv_r in Hall. done.
    + done.
    + done.
  - simpl. split; [done|]. split; [done|].
    apply Forall2_fmap_r. eapply Forall2_impl; [exact Hall|]. simpl.
    intros kv row [Hk Hv]. split; [done|]. by rewrite Hv.
Qed.

Lemma get_entity_tuple_keys_witness :
  exists s,
    get_entity Examples.transport "distance" = Ok (ASeries s)
    /\ index_names s = dedup_labels ["plants"; "markets"]
    /\ series_name s = "distance"
    /\ Forall2 (fun kv e => kv.1 = VTuple e.1 /\ kv.2 = e.2)
               [(Examples.route "Seattle" "New-York", VNum 2.5);
                (Examples.route "Seattle" "Chicago", VNum 1.7);
                (Examples.route "Seattle" "Topeka", VNum 1.8);
                (Examples.route "San-Diego" "New-York", VNum 2.5);
                (Examples.route "San-Diego" "Chicago", VNum 1.8);
                (Examples.route "San-Diego" "Topeka", VNum 1.4)]
               (entries s).
Proof.
  apply (get_entity_tuple_keys Examples.transport "distance" "distance"
           Param None 2 (Some Examples.plants_markets) _
           ["plants"; "markets"]).
  - reflexivity.
  - lia.
  - reflexivity.
  - discriminate.
  - repeat constructor; by eexists.
  - apply (bool_decide_unpack _). by vm_compute.
Defined.

(** X11: a scalar parameter, variable, constraint or objective (of
    dimension zero) that holds an item cannot be extracted: its row has
    the index and the value, the only column name is the name of the
    entity, and naming the columns raises. *)
Theorem get_entity_scalar_raises (inst : instance) (name pname : string)
    (k : kind) (doc : option string) (dim : Z) (idx : option pyobj)
    (items : list (pyval * pyval)) :
  getattribute inst name = Ok (PIndexed k pname doc dim idx items) ->
  dim <= 0 ->
  items <> [] ->
  get_entity inst name = Raise (ValueError "Length mismatch").
Proof.
  intros Hget Hdim Hne.
  assert (_get_onset_names (PIndexed k pname doc dim idx items) = Ok [])
    as Hlab.
  { rewrite _get_onset_names_eq.
    assert ((0 <? dim) = false) as -> by (apply Z.ltb_ge; lia). done. }
  assert (entity_rows (PIndexed k pname doc dim idx items)
          = Ok ((fun v => [v.1; v.2]) <$> items)) as Hrows.
  { rewrite entity_rows_indexed.
    assert ((1 <? dim) = false) as -> by (apply Z.ltb_ge; lia). done. }
  rewrite (get_entity_eq inst name _ [] _ Hget Hlab Hrows). simpl.
  assert (Forall (fun row : list pyval => length row = 2%nat)
                 ((fun v : pyval * pyval => [v.1; v.2]) <$> items)) as Hall
    by (apply Forall_fmap, Forall_true; done).
  rewrite (pd_DataFrame_uniform _ _ Hall).
  rewrite bool_decide_eq_false_2 by (by destruct items).
  unfold set_columns. rewrite (width_uniform 2) by (by destruct items).
  done.
Qed.

Lemma get_entity_scalar_raises_witness :
  get_entity Examples.transport "obj_cost"
  = Raise (ValueError "Length mismatch").
Proof.
  apply (get_entity_scalar_raises Examples.transport "obj_cost" "obj_cost"
           Objective None 0 (Some (POther "{None}" true)) [(VNone, VNone)]).
  - reflexivity.
  - lia.
  - discriminate.
Defined.

(** X12: what [get_entity] does with a set that holds elements, by the
    number of labels derived for it.  Without a label, the index is named
    after the name asked for and the column takes the marker; with one
    label, other than the name asked for, the index is named by the
    label and the column keeps the name; in both cases every element
    maps to 1.  With two labels or more, the rows (the element and the 1)
    are too short for the column names and naming the columns raises. *)
Theorem get_entity_set_by_labels (inst : instance) (name sname : string)
    (doc : option string) (dimen : Z) (domain : option pyobj)
    (set_tuple : option (list pyobj)) (virtual : bool) (value : list pyval)
    (labels : list string) :
  getattribute inst name
    = Ok (PSet sname doc dimen domain set_tuple virtual value) ->
  _get_onset_names (PSet sname doc dimen domain set_tuple virtual value)
    = Ok labels ->
  value <> [] ->
  match labels with
  | [] =>
      get_entity inst name
      = Ok (ASeries (Series [name] (name +:+ "_")
                       ((fun v => ([v], VNum 1)) <$> value)))
  | [label] =>
      label <> name ->
      get_entity inst name
      = Ok (ASeries (Series [label] name
                       ((fun v => ([v], VNum 1)) <$> value)))
  | _ => get_entity inst name = Raise (ValueError "Length mismatch")
  end.
Proof.
  intros Hget Hlab Hne.
  assert (entity_rows (PSet sname doc dimen domain set_tuple virtual value)
          = Ok ((fun v => [v; VNum 1]) <$> value)) as Hrows by done.
  assert (Forall (fun row : list pyval => length row = 2%nat)
                 ((fun v : pyval => [v; VNum 1]) <$> value)) as Hall
    by (apply Forall_fmap, Forall_true; done).
  assert ((fun v : pyval => [v; VNum 1]) <$> value <> []) as Hne'
    by (by destruct value).
  assert (forall a b : string, a <> b -> NoDup [a; b]) as Hpair.
  { intros a b Hab. apply NoDup_cons. split; [|apply NoDup_singleton].
    intros Hin. by apply list_elem_of_singleton in Hin. }
  destruct labels as [|label [|label' labels]].
  - rewrite (get_entity_series inst name _ [] _ Hget Hlab Hrows Hne' Hall)
      by apply Hpair, append_marker_neq.
    simpl. do 3 f_equal. by rewrite <- list_fmap_compose.
  - intros Hlabel.
    rewrite (get_entity_series inst name _ [label] _ Hget Hlab Hrows Hne' Hall)
      by by apply Hpair.
    simpl. do 3 f_equal. by rewrite <- list_fmap_compose.
  - rewrite (get_entity_eq inst name _ _ _ Hget Hlab Hrows). simpl.
    rewrite (pd_DataFrame_uniform _ _ Hall).
    rewrite bool_decide_eq_false_2 by done.
    unfold set_columns. rewrite (width_uniform 2) by done.
    destruct (_ =? _)%nat eqn:Hw; [|done].
    apply Nat.eqb_eq in Hw.
    rewrite length_app, dedup_labels_length in Hw. simpl in Hw. lia.
Qed.

Lemma get_entity_set_by_labels_witness :
  get_entity Examples.network "hubs"
  = Ok (ASeries (Series ["plants"] "hubs" [([VStr "Seattle"], VNum 1)])).
Proof.
  apply (get_entity_set_by_labels Examples.network "hubs" "hubs" None 1
           (Some Examples.plants) None false [VStr "Seattle"] ["plants"]).
  - reflexivity.
  - reflexivity.
  - discriminate.
  - discriminate.
Defined.

(** ** [get_entities]: the first entity, missing names *)

(** A returned series holds an entry. *)
Lemma get_entity_series_nonempty (inst : instance) (name : string)
    (s : series) :
  get_entity inst name = Ok (ASeries s) -> entries s <> [].
Proof.
  unfold get_entity.
  destruct (getattribute inst name) as [entity|]; simpl; [|discriminate].
  destruct (_get_onset_names entity) as [labels|]; simpl; [|discriminate].
  destruct (entity_rows entity) as [rows|]; simpl; [|discriminate].
  destruct (rename_unlabelled entity labels name) as [labels' name'].
  case_bool_decide as Hempty; [discriminate|].
  destruct (set_columns _ _) as [frame|] eqn:Hcols; simpl; [|discriminate].
  destruct (to_series _ _ _) as [s'|] eqn:Hs; simpl; [|discriminate].
  intros [= <-]. unfold set_columns in Hcols.
  destruct (_ =? _)%nat; [|discriminate]. injection Hcols as <-.
  apply to_series_returns in Hs as (_ & _ & Hent & _).
  intros Hnil. rewrite Hnil in Hent. simpl in Hent.
  destruct (pd_DataFrame rows); [by apply Hempty|discriminate].
Qed.

Section JoinerEdges.

Variable join : dframe -> table -> res dframe.

(** X13: [get_entities] cannot start from an entity without elements:
    [get_entity] returns the empty [DataFrame] for it, which has no
    [to_frame], whatever names follow and whatever the join does. *)
Theorem get_entities_empty_first (inst : instance) (name : string)
    (names : list string) (entity : pyobj) (labels : list string) :
  getattribute inst name = Ok entity ->
  _get_onset_names entity = Ok labels ->
  row_count entity = O ->
  get_entities join inst (name :: names) = Raise (AttributeError "to_frame").
Proof.
  intros Hget Hlab Hrows. unfold get_entities. simpl.
  by rewrite (get_entity_no_rows inst name entity labels).
Qed.

Lemma get_entities_from_missing (inst : instance) (names : list string)
    (name : string) :
  name ∈ names -> name ∉ inst.*1 ->
  forall df, raises (get_entities_from join inst df names).
Proof.
  intros Hin Hnot. induction names as [|n names IH]; intros df; simpl.
  - by apply elem_of_nil in Hin.
  - apply elem_of_cons in Hin as [<-|Hin].
    + unfold get_entity. by rewrite getattribute_missing.
    + destruct (get_entity inst n); simpl; [|done].
      destruct (combine join df _); simpl; [by apply IH|done].
Qed.

(** X14: when one of the requested names is not an attribute of the
    instance, [get_entities] raises and returns no table, wherever the
    name stands in the list and whatever the join does. *)
Theorem get_entities_missing_name (inst : instance) (names : list string)
    (name : string) :
  name ∈ names -> name ∉ inst.*1 -> raises (get_entities join inst names).
Proof. intros Hin Hnot. by apply (get_entities_from_missing inst names name). Qed.

(** X15: the first entity names the index: with a join that keeps a
    table that holds rows and columns non-empty, the index levels of the
    table returned by [get_entities] carry the index names of the series
    of the first entity, whatever the later entities are indexed by. *)
Theorem get_entities_index_of_first (inst : instance) (name : string)
    (names : list string) (s : series) (df : dframe) :
  (forall df other df', df_empty df = false -> join df other = Ok df' ->
                        df_empty df' = false) ->
  get_entity inst name = Ok (ASeries s) ->
  get_entities join inst (name :: names) = Ok df ->
  df_index_names df = Some <$> index_names s.
Proof.
  intros Hjoin Hfirst Hrun. unfold get_entities in Hrun. simpl in Hrun.
  rewrite Hfirst in Hrun. simpl in Hrun.
  pose proof (get_entity_series_nonempty _ _ _ Hfirst) as Hne.
  apply (get_entities_from_index_names join inst names Hjoin) in Hrun;
    [done|].
  unfold df_empty. simpl. destruct (entries s); done.
Qed.

End JoinerEdges.

Lemma forgetful_join_keeps_rows (df : dframe) (other : table) (df' : dframe) :
  df_empty df = false -> Examples.forgetful_join df other = Ok df' ->
  df_empty df' = false.
Proof.
  unfold df_empty. intros Hne. apply orb_false_elim in Hne as [Hr Hc].
  destruct other as [|s]; simpl; intros [= <-]; simpl.
  - by rewrite Hr, Hc.
  - destruct (df_rows df); [done|]. simpl.
    by destruct (df_columns df).
Qed.

Lemma get_entities_empty_first_witness :
  get_entities Examples.forgetful_join Examples.sparse
               ["storage_cost"; "storage"]
  = Raise (AttributeError "to_frame").
Proof.
  apply (get_entities_empty_first Examples.forgetful_join Examples.sparse
           "storage_cost" ["storage"] Examples.storage_cost []);
    reflexivity.
Defined.

Lemma get_entities_missing_name_witness :
  raises (get_entities Examples.forgetful_join Examples.transport
                       ["capacity"; "supply"]).
Proof.
  apply (get_entities_missing_name Examples.forgetful_join Examples.transport
           ["capacity"; "supply"] "supply").
  - apply list_elem_of_further, list_elem_of_here.
  - intros Hin. simpl in Hin.
    repeat (apply elem_of_cons in Hin as [Hin|Hin]; [discriminate|]).
    by apply elem_of_nil in Hin.
Defined.

Lemma get_entities_index_of_first_witness :
  exists df,
    get_entities Examples.forgetful_join Examples.transport
                 ["capacity"; "demand"] = Ok df
    /\ df_index_names df = [Some "plants"].
Proof.
  eexists. split; [vm_compute; reflexivity|].
  apply (get_entities_index_of_first Examples.forgetful_join
           Examples.transport "capacity" ["demand"]
           (Series ["plants"] "capacity"
              [([VStr "Seattle"], VNum 350); ([VStr "San-Diego"], VNum 600)])).
  - apply forgetful_join_keeps_rows.
  - reflexivity.
  - reflexivity.
Defined.

(** ** [list_entities]: order and contents of the listing *)

Lemma insert_by_name_HdRel (y x : listing) (l : list listing) :
  HdRel name_le y l -> name_le y x -> HdRel name_le y (insert_by_name x l).
Proof.
  intros Hhd Hyx. destruct l as [|z l]; simpl; [by constructor|].
  destruct (String.leb x.1.1 z.1.1); constructor; [done|].
  by apply HdRel_inv in Hhd.
Qed.

Lemma insert_by_name_sorted (x : listing) (l : list listing) :
  Sorted name_le l -> Sorted name_le (insert_by_name x l).
Proof.
  induction 1 as [|y l Hs IH Hhd]; simpl; [by repeat constructor|].
  destruct (String.leb x.1.1 y.1.1) eqn:Hxy.
  - constructor; [by constructor|by constructor].
  - constructor; [done|]. apply insert_by_name_HdRel; [done|].
    unfold name_le. destruct (String.leb_total x.1.1 y.1.1); congruence.
Qed.

Lemma sorted_Sorted (l : list listing) : Sorted name_le (sorted l).
Proof.
  induction l as [|x l IH]; simpl; [constructor|].
  by apply insert_by_name_sorted.
Qed.

Lemma insert_by_name_perm (x : listing) (l : list listing) :
  insert_by_name x l ≡ₚ x :: l.
Proof.
  induction l as [|y l IH]; simpl; [done|].
  destruct (String.leb x.1.1 y.1.1); [done|].
  rewrite IH. apply Permutation_swap.
Qed.

Lemma sorted_perm (l : list listing) : sorted l ≡ₚ l.
Proof.
  induction l as [|x l IH]; simpl; [done|].
  by rewrite insert_by_name_perm, IH.
Qed.

(** X16: the listing is ordered by name, and sorting neither drops nor
    repeats a line: the table holds the lines yielded for the matching
    entities, each once, in ascending order of the names. *)
Theorem list_entities_sorted (inst : instance) (entity_type : string)
    (rows : list listing) :
  list_entities inst entity_type = Ok (EntityTable rows) ->
  Sorted name_le rows
  /\ exists found, matching_entities inst entity_type = Ok found
                   /\ rows ≡ₚ found.
Proof.
  unfold list_entities.
  destruct (matching_entities inst entity_type) as [found|]; simpl;
    [|discriminate].
  case_bool_decide; [|discriminate]. intros [= <-].
  split; [apply sorted_Sorted|]. exists found. split; [done|].
  apply sorted_perm.
Qed.

Lemma list_entities_sorted_witness :
  Sorted name_le
    [("capacity", None, ["plants"]); ("demand", None, ["markets"]);
     ("distance", None, ["plants"; "markets"])].
Proof.
  apply (list_entities_sorted Examples.transport "par"). reflexivity.
Defined.

(** The lines yielded for an instance: one per attribute kept by the
    filter, with its description and its labels; every kept attribute
    has labels. *)
Lemma matching_entities_elem (inst : instance) (entity_type : string) :
  forall found, matching_entities inst entity_type = Ok found ->
  (forall name doc labels,
     (name, doc, labels) ∈ found <->
     exists entity, (name, entity) ∈ inst
                    /\ filter_by_type entity entity_type = Ok true
                    /\ obj_doc entity = doc
                    /\ _get_onset_names entity = Ok labels).
Proof.
  induction inst as [|[n e] inst IH]; intros found; simpl.
  - intros [= <-] name doc labels. split.
    + intros H. by apply elem_of_nil in H.
    + intros (? & H & _). by apply elem_of_nil in H.
  - destruct (filter_by_type e entity_type) as [keep|] eqn:Hkeep; simpl;
      [|discriminate].
    destruct keep.
    + destruct (_get_onset_names e) as [le|] eqn:Hle; simpl; [|discriminate].
      destruct (matching_entities inst entity_type) as [found'|]; simpl;
        [|discriminate].
      intros [= <-] name doc labels. rewrite elem_of_cons, (IH found' eq_refl).
      split.
      * intros [[= -> -> ->]|(entity & Hin & ?)].
        -- exists e. split; [apply list_elem_of_here|done].
        -- exists entity. split; [by apply list_elem_of_further|done].
      * intros (entity & Hin & Hk & Hd & Hl).
        apply elem_of_cons in Hin as [[= -> ->]|Hin].
        -- left. rewrite Hle in Hl. injection Hl as <-. by rewrite Hd.
        -- right. by exists entity.
    + intros Hm name doc labels. rewrite (IH found Hm). split.
      * intros (entity & Hin & ?). exists entity.
        split; [by apply list_elem_of_further|done].
      * intros (entity & Hin & Hk & Hd & Hl).
        apply elem_of_cons in Hin as [[= -> ->]|Hin]; [congruence|].
        by exists entity.
Qed.

Lemma matching_entities_labelled (inst : instance) (entity_type : string) :
  forall found, matching_entities inst entity_type = Ok found ->
  forall name entity,
    (name, entity) ∈ inst ->
    filter_by_type entity entity_type = Ok true ->
    exists labels, _get_onset_names entity = Ok labels.
Proof.
  induction inst as [|[n e] inst IH]; intros found; simpl.
  - intros _ name entity H. by apply elem_of_nil in H.
  - destruct (filter_by_type e entity_type) as [keep|] eqn:Hkeep; simpl;
      [|discriminate].
    destruct keep.
    + destruct (_get_onset_names e) as [le|] eqn:Hle; simpl; [|discriminate].
      destruct (matching_entities inst entity_type) as [found'|]; simpl;
        [|discriminate].
      intros _ name entity Hin Hk.
      apply elem_of_cons in Hin as [[= -> ->]|Hin]; [by eexists|].
      by apply (IH found' eq_refl name entity).
    + intros Hm name entity Hin Hk.
      apply elem_of_cons in Hin as [[= -> ->]|Hin]; [congruence|].
      by apply (IH found Hm name entity).
Qed.

(** The lines of a returned listing. *)
Lemma list_entities_lines (inst : instance) (entity_type : string)
    (t : entity_table) :
  list_entities inst entity_type = Ok t ->
  exists rows,
    t = (if bool_decide (rows <> []) then EntityTable rows else EmptyTable)
    /\ (forall name doc labels,
          (name, doc, labels) ∈ rows <->
          exists entity, (name, entity) ∈ inst
                         /\ filter_by_type entity entity_type = Ok true
                         /\ obj_doc entity = doc
                         /\ _get_onset_names entity = Ok labels)
    /\ (forall name entity,
          (name, entity) ∈ inst ->
          filter_by_type entity entity_type = Ok true ->
          exists labels, _get_onset_names entity = Ok labels).
Proof.
  unfold list_entities.
  destruct (matching_entities inst entity_type) as [found|] eqn:Hm; simpl;
    [|discriminate].
  intros Ht. exists (sorted found). split.
  - by case_bool_decide; injection Ht as <-.
  - split; [|by apply (matching_entities_labelled inst entity_type found)].
    intros name doc labels. rewrite (sorted_perm found).
    by apply matching_entities_elem.
Qed.

(** X17: a returned listing holds exactly the matching entities: a line
    (name, description, labels) stands in the table if and only if the
    instance has an attribute of that name which the tag selects, with
    that description and these derived labels; the table is never
    returned without a line, and the empty table is returned only when
    the tag selects no attribute. *)
Theorem list_entities_contents (inst : instance) (entity_type : string)
    (t : entity_table) :
  list_entities inst entity_type = Ok t ->
  match t with
  | EmptyTable =>
      forall name entity,
        (name, entity) ∈ inst ->
        filter_by_type entity entity_type <> Ok true
  | EntityTable rows =>
      rows <> []
      /\ forall name doc labels,
           (name, doc, labels) ∈ rows <->
           exists entity, (name, entity) ∈ inst
                          /\ filter_by_type entity entity_type = Ok true
                          /\ obj_doc entity = doc
                          /\ _get_onset_names entity = Ok labels
  end.
Proof.
  intros Hrun.
  destruct (list_entities_lines inst entity_type t Hrun)
    as (rows & -> & Hrows & Hlab).
  case_bool_decide as Hne; [done|].
  intros name entity Hin Hk.
  destruct (Hlab name entity Hin Hk) as [labels Hl].
  assert ((name, obj_doc entity, labels) ∈ rows) as Hrow
    by (apply Hrows; by exists entity).
  rewrite Hne in Hrow. by apply elem_of_nil in Hrow.
Qed.

Lemma list_entities_contents_witness :
  ("demand", None, ["markets"])
    ∈ ([("capacity", None, ["plants"]); ("demand", None, ["markets"]);
        ("distance", None, ["plants"; "markets"])] : list listing)
  <-> exists entity, ("demand", entity) ∈ Examples.transport
                     /\ filter_by_type entity "par" = Ok true
                     /\ obj_doc entity = None
                     /\ _get_onset_names entity = Ok ["markets"].
Proof.
  apply (list_entities_contents Examples.transport "par"
           (EntityTable
              [("capacity", None, ["plants"]); ("demand", None, ["markets"]);
               ("distance", None, ["plants"; "markets"])])).
  reflexivity.
Defined.

(** X19: the listing and the extraction agree: for an instance whose
    attribute names are pairwise different, when an entity is listed with
    a non-empty list of labels and [get_entity] returns a series for its
    name, the series is named after the entity and its index levels are
    named by the listed labels, after the duplicate scan. *)
Theorem listed_labels_name_index (inst : instance) (entity_type : string)
    (rows : list listing) (name : string) (doc : option string)
    (labels : list string) (s : series) :
  NoDup inst.*1 ->
  list_entities inst entity_type = Ok (EntityTable rows) ->
  (name, doc, labels) ∈ rows ->
  labels <> [] ->
  get_entity inst name = Ok (ASeries s) ->
  index_names s = dedup_labels labels /\ series_name s = name.
Proof.
  intros Hnd Hlist Hrow Hne Hget.
  destruct (list_entities_lines inst entity_type _ Hlist)
    as (rows' & Ht & Hrows & _).
  assert (rows' = rows) as ->.
  { by case_bool_decide; [injection Ht as <-|]. }
  apply Hrows in Hrow as (entity & Hin & _ & _ & Hlab).
  pose proof (getattribute_unique inst name entity Hnd Hin) as Hattr.
  destruct (get_entity_returns inst name entity _ Hattr Hget)
    as (_ & _ & _ & labels' & Hlab' & Hidx & Hname).
  rewrite Hlab in Hlab'. injection Hlab' as <-.
  unfold rename_unlabelled in Hidx, Hname.
  rewrite (bool_decide_eq_false_2 (labels = [])) in Hidx, Hname by done.
  by rewrite andb_false_r in Hidx, Hname.
Qed.

Lemma listed_labels_name_index_witness :
  exists s, get_entity Examples.transport "distance" = Ok (ASeries s)
            /\ index_names s = dedup_labels ["plants"; "markets"]
            /\ series_name s = "distance".
Proof.
  eexists. split; [vm_compute; reflexivity|].
  apply (listed_labels_name_index Examples.transport "par"
           [("capacity", None, ["plants"]); ("demand", None, ["markets"]);
            ("distance", None, ["plants"; "markets"])]
           "distance" None ["plants"; "markets"]).
  - apply (bool_decide_unpack _). by vm_compute.
  - reflexivity.
  - apply list_elem_of_further, list_elem_of_further, list_elem_of_here.
  - discriminate.
  - reflexivity.
Defined.

(** ** The depth of the recursion and the dimension *)

Lemma extend_all_fuel_mono (f g : pyobj -> option (res (list string)))
    (domains : list pyobj) (r : res (list string)) :
  (forall d r', d ∈ domains -> f d = Some r' -> g d = Some r') ->
  extend_all_fuel f domains = Some r ->
  extend_all_fuel g domains = Some r.
Proof.
  revert r. induction domains as [|d l IH]; intros r Hfg; simpl; [done|].
  destruct (f d) as [[ld|e]|] eqn:Hd; [| |discriminate].
  - rewrite (Hfg d (Ok ld)) by (done || apply list_elem_of_here).
    destruct (extend_all_fuel f l) as [[ll|e]|] eqn:Hl; [| |discriminate].
    + rewrite (IH (Ok ll)); [done| |done].
      intros; apply Hfg; [by apply list_elem_of_further|done].
    + rewrite (IH (Raise e)); [done| |done].
      intros; apply Hfg; [by apply list_elem_of_further|done].
  - by rewrite (Hfg d (Raise e)) by (done || apply list_elem_of_here).
Qed.

Lemma fuel_step (n : nat) :
  forall entity r, _get_onset_names_fuel n entity = Some r ->
  _get_onset_names_fuel (S n) entity = Some r.
Proof.
  induction n as [|n IH]; intros entity r; [discriminate|].
  change (_get_onset_names_fuel (S n) entity = Some r ->
          _get_onset_names_fuel (S (S n)) entity = Some r).
  destruct entity as [name doc dimen domain st virtual value
                     |k name doc dim idx items|name truth]; simpl.
  - destruct (1 <? dimen); [|done].
    destruct (domains_of domain st) as [domains|]; [|done].
    apply extend_all_fuel_mono. intros d r' _. apply IH.
  - destruct idx as [i|]; [|done].
    destruct ((0 <? dim) && obj_truth i); [apply IH|done].
  - done.
Qed.

(** More nested calls allowed do not change the result. *)
Lemma fuel_le (n m : nat) (entity : pyobj) (r : res (list string)) :
  (n <= m)%nat -> _get_onset_names_fuel n entity = Some r ->
  _get_onset_names_fuel m entity = Some r.
Proof.
  induction 1 as [|m _ IH]; [done|]. intros H. by apply fuel_step, IH.
Qed.

Lemma wf_components_elem (domains : list pyobj) (d : pyobj) :
  wf_components domains = true -> d ∈ domains -> wf_entity d = true.
Proof.
  intros Hwf Hin. revert Hwf.
  induction Hin as [d l|d d' l _ IH]; simpl; intros Hwf;
    repeat (apply andb_prop in Hwf as [Hwf ?]); [done|by apply IH].
Qed.

(** A well-formed set of dimension d needs d nested calls, one if d is
    below one. *)
Lemma wf_set_fuel (k : nat) :
  forall S, (depth S < k)%nat -> is_set S = true -> wf_entity S = true ->
  _get_onset_names_fuel (Z.to_nat (Z.max 1 (dim_of S))) S
  = Some (_get_onset_names S).
Proof.
  induction k as [|k IH]; intros S Hk HS Hwf; [lia|].
  destruct S as [name doc dimen domain st virtual value| |];
    try discriminate.
  rewrite wf_entity_PSet in Hwf. rewrite _get_onset_names_eq. simpl dim_of.
  destruct (1 <? dimen) eqn:Hd.
  - apply Z.ltb_lt in Hd.
    destruct (domains_of domain st) as [domains|] eqn:Hdom; [|discriminate].
    repeat (apply andb_prop in Hwf as [Hwf ?]).
    replace (Z.to_nat (Z.max 1 dimen)) with (S (Z.to_nat (dimen - 1))) by lia.
    simpl. apply Z.ltb_lt in Hd as Hd'. rewrite Hd', Hdom. simpl.
    apply extend_all_fuel_spec. intros d Hin.
    destruct (wf_components_dims _ _ H0 Hin) as (Hset & Hlow & Hhigh).
    apply Nat.leb_le in Hwf. apply Z.eqb_eq in H.
    apply (fuel_le (Z.to_nat (Z.max 1 (dim_of d)))); [lia|].
    apply IH; [|done|by apply (wf_components_elem domains)].
    pose proof (domains_of_depth name doc dimen domain st virtual value _ Hdom).
    pose proof (depth_list_elem _ _ Hin). lia.
  - apply Z.ltb_ge in Hd. apply Z.leb_le in Hwf.
    replace (Z.to_nat (Z.max 1 dimen)) with 1%nat by lia.
    simpl. apply Z.ltb_ge in Hd as Hd'. rewrite Hd'.
    destruct (dimen =? 1); [|done]. by destruct (truthy domain).
Qed.

(** X20: on a well-formed entity the recursion is as deep as the
    dimension at most: a set of dimension d is labelled within d nested
    calls (one, if d is zero), and a parameter, variable, constraint or
    objective of dimension d within d + 1. *)
Theorem onset_names_depth_by_dimension (E : pyobj) :
  wf_entity E = true ->
  _get_onset_names_fuel
    (Z.to_nat (Z.max 1 (dim_of E)) + if is_set E then 0 else 1) E
  = Some (_get_onset_names E).
Proof.
  intros Hwf.
  destruct E as [name doc dimen domain st virtual value
                |k name doc dim idx items|name truth]; [| |discriminate].
  - rewrite Nat.add_0_r.
    apply (wf_set_fuel
             (S (depth (PSet name doc dimen domain st virtual value))));
      [lia|done|done].
  - rewrite Nat.add_1_r. rewrite _get_onset_names_eq.
    simpl in Hwf |- *. destruct (0 <? dim) eqn:Hd.
    + destruct idx as [i|]; [|discriminate].
      repeat (apply andb_prop in Hwf as [Hwf ?]).
      simpl. rewrite !Hwf. simpl. apply Z.eqb_eq in H. rewrite <- H.
      apply (wf_set_fuel (S (depth i))); [lia|done|done].
    + destruct idx as [i|]; [|done]. by destruct (obj_truth i).
Qed.

Lemma onset_names_depth_by_dimension_witness :
  _get_onset_names_fuel 3 Examples.distance
  = Some (Ok ["plants"; "markets"]).
Proof.
  apply (onset_names_depth_by_dimension Examples.distance). reflexivity.
Defined.
